(** * The OneKey client node: request handlers and their error shaping

    A shallow embedding of [ClientNode] (the Express controller of a vendor
    node) and of the three query-string helpers it is built on.  Handlers
    are programs in a small state-and-exception monad over the Express
    response object; every method of a collaborator that the file imports
    ([OperatorClient], the request builders, [getPayload],
    [fromDataToObject], [JSON.parse], [new URL]) is a field of a record the
    handlers are parameterised by. *)

From Stdlib Require Import String List ZArith Bool Lia.
Import ListNotations.
Local Open Scope string_scope.
Local Open Scope list_scope.
Local Open Scope Z_scope.

Set Warnings "-register-all".

(* ------------------------------------------------------------------ *)
(** ** Error types ([@core/errors]) *)

(** Only the members the controller names are listed; their run-time
    strings are declared outside this file, so a member stays symbolic. *)
Module ClientNodeErrorType.
Inductive t := VERIFICATION_FAILED | UNKNOWN_ERROR.
End ClientNodeErrorType.

Module OperatorErrorType.
Inductive t := UNKNOWN_ERROR.
End OperatorErrorType.

Inductive ErrorType :=
| OfClientNode (m : ClientNodeErrorType.t)
| OfOperator (m : OperatorErrorType.t).

(* ------------------------------------------------------------------ *)
(** ** JavaScript values and exceptions *)

Inductive JsVal :=
| JNull
| JBool (b : bool)
| JNum (n : Z)
| JStr (s : string)
| JArr (xs : list JsVal)
| JObj (fields : list (string * JsVal))
| JEnum (m : ErrorType).

(** [ClientNodeError] and [OperatorError]: the object literal
    [{ type, details }].  The declared type of [details] is a string; the
    value written there at run time is whatever the handler read, and may
    be [undefined]. *)
Record NodeError := { type : ErrorType; details : option JsVal }.

(** [undefined] is [None] of [option JsVal]; a number is only ever tested
    for being zero, and an integer stands for it. *)
Definition truthy (v : JsVal) : bool :=
  match v with
  | JNull => false
  | JBool b => b
  | JNum n => negb (n =? 0)
  | JStr s => negb (s =? "")%string
  | JArr _ | JObj _ | JEnum _ => true
  end.

Inductive Exn :=
| TypeError
| SyntaxError
| ERR_HTTP_HEADERS_SENT
| Raised (what : string).

Inductive result (A : Type) :=
| Ok (a : A)
| Throw (e : Exn).
Arguments Ok {A} a.
Arguments Throw {A} e.

Fixpoint assoc {A : Type} (k : string) (l : list (string * A)) : option A :=
  match l with
  | [] => None
  | (k', v) :: r => if (k =? k')%string then Some v else assoc k r
  end.

(** [v.name] for the property names the controller reads ([response],
    [transaction_ids], [data], [identifiers], [unsignedPreferences]):
    a [TypeError] on [null], the field of an object, [undefined] on any
    other value. *)
Definition get_prop (v : JsVal) (name : string) : result (option JsVal) :=
  match v with
  | JNull => Throw TypeError
  | JObj fields => Ok (assoc name fields)
  | _ => Ok None
  end.

(** The same read on a value that may be [undefined]. *)
Definition get_prop_opt (v : option JsVal) (name : string)
  : result (option JsVal) :=
  match v with
  | None => Throw TypeError
  | Some x => get_prop x name
  end.

(** A WHATWG [URL], kept as its serialisation. *)
Inductive URL := mkURL (href : string).
Definition URL_toString (u : URL) : string := let (h) := u in h.

(* ------------------------------------------------------------------ *)
(** ** Express request and response *)

Record Request := {
  query : list (string * string);
  headers : list (string * string);
  body : string
}.

(** [req.query[name] as string] *)
Definition req_query (req : Request) (name : string) : option string :=
  assoc name (query req).

(** [req.header(name)] *)
Definition req_header (req : Request) (name : string) : option string :=
  assoc name (headers req).

Inductive Body :=
| BText (s : string)
| BJson (v : JsVal).

(** [endpoints.ts] is not part of this file: the path constants are kept
    as the members the controller names. *)
Module jsonProxyEndpoints.
Inductive t :=
| read | write | verify3PC | newId | delete | verifyRead | signPrefs
| createSeed.
End jsonProxyEndpoints.

Module redirectProxyEndpoints.
Inductive t := read | write | delete.
End redirectProxyEndpoints.

Inductive Endpoint :=
| JsonEndpoint (e : jsonProxyEndpoints.t)
| RedirectEndpoint (e : redirectProxyEndpoints.t).

(** The contexts the builders sign over. *)
Record RestContext := { origin : option string }.
Record RedirectContext := { returnUrl : string; referer : option string }.

(** Modelled from the spec: the [Seed] type of [@core/model], which is not
    in this file -- section 3 gives its fields as transactionIds (an ordered
    sequence of strings), data, signature, signerHost and timestamp. *)
Record Seed := {
  transactionIds : list string;
  data : JsVal;
  signature : string;
  signerHost : string;
  timestamp : Z
}.

Definition Seed_toJSON (s : Seed) : JsVal :=
  JObj [ ("transactionIds", JArr (map JStr (transactionIds s)));
         ("data", data s);
         ("signature", JStr (signature s));
         ("signerHost", JStr (signerHost s));
         ("timestamp", JNum (timestamp s)) ].

(** The operator's envelope, [RedirectGetIdsPrefsResponse]: either
    [{ response }] or [{ error: { message } }], both fields optional.
    The body is not checked against that type: [message] is whatever
    [error.message] reads, [undefined] when [error] has no such field;
    an [error] that is [undefined] or [null] is [None]. *)
Record ErrorEnvelope := { message : option JsVal }.
Record RedirectGetIdsPrefsResponse := {
  response : option JsVal;
  error : option ErrorEnvelope
}.

(** Every call the controller makes on [this.client] and on its builders. *)
Inductive Call :=
| C_getReadRestUrl (req : Request)
| C_getReadRedirectUrl (req : Request) (returnUrl : option URL)
| C_getDeleteRedirectUrl (req : Request) (returnUrl : option URL)
| C_verifyReadResponse (r : JsVal)
| C_buildPreferences (identifiers unsignedData : option JsVal)
| C_buildSeed (transaction_ids data : option JsVal)
| C_post_buildRestRequest (ctx : RestContext) (payload : JsVal)
| C_post_getRestUrl
| C_post_buildRedirectRequest (ctx : RedirectContext) (payload : JsVal)
| C_post_getRedirectUrl (signed : JsVal)
| C_get3PC_getRestUrl
| C_newId_buildRestRequest (ctx : RestContext)
| C_newId_getRestUrl (signed : JsVal)
| C_delete_buildRestRequest (ctx : RestContext)
| C_delete_getRestUrl (signed : JsVal).

(** What a handler does, in program order. *)
Inductive Event :=
| ResSendStatus (code : Z)
| ResStatus (code : Z)
| ResJson (v : JsVal)
| ResSend (s : string)
| Next (err : option NodeError)
| LoggerError (e : Endpoint)
| Called (c : Call).

(** The response object: the status code field, and what went out on the
    wire (status and body of the first send). *)
Record Response := {
  statusCode : Z;
  sent : option (Z * Body)
}.

Record World := {
  res : Response;
  trace : list Event
}.

Definition fresh : World :=
  {| res := {| statusCode := 200; sent := None |}; trace := [] |}.

Definition headersSent (w : World) : bool :=
  match sent (res w) with Some _ => true | None => false end.

(* ------------------------------------------------------------------ *)
(** ** The handler monad: state and exceptions *)

Definition M (A : Type) : Type := World -> result A * World.

Definition ret {A} (a : A) : M A := fun w => (Ok a, w).

Definition bind {A B} (m : M A) (k : A -> M B) : M B :=
  fun w =>
    match m w with
    | (Ok a, w') => k a w'
    | (Throw e, w') => (Throw e, w')
    end.

Definition lift {A} (r : result A) : M A := fun w => (r, w).

(** [try { m } catch (e) { h e }] *)
Definition try_catch {A} (m : M A) (h : Exn -> M A) : M A :=
  fun w =>
    match m w with
    | (Ok a, w') => (Ok a, w')
    | (Throw e, w') => h e w'
    end.

Declare Scope handler_scope.
Delimit Scope handler_scope with handler.
Notation "x <- m ;; k" := (bind m (fun x => k))
  (at level 61, m at next level, right associativity) : handler_scope.
Notation "m ;; k" := (bind m (fun _ => k))
  (at level 61, right associativity) : handler_scope.
Local Open Scope handler_scope.

Definition emit (e : Event) : M unit :=
  fun w => (Ok tt, {| res := res w; trace := trace w ++ [e] |}).

Definition set_statusCode (code : Z) : M unit :=
  fun w => (Ok tt, {| res := {| statusCode := code; sent := sent (res w) |};
                      trace := trace w |}).

(** Writing the head and body.  Node refuses to set a header once the
    head has been written: every sending method of Express sets
    Content-Type first and so raises [ERR_HTTP_HEADERS_SENT]. *)
Definition write (b : Body) : M unit :=
  fun w =>
    if headersSent w then (Throw ERR_HTTP_HEADERS_SENT, w)
    else (Ok tt, {| res := {| statusCode := statusCode (res w);
                              sent := Some (statusCode (res w), b) |};
                    trace := trace w |}).

(** [statuses.message[code]] for the codes in use. *)
Definition status_message (code : Z) : string :=
  if code =? 400 then "Bad Request"
  else if code =? 200 then "OK"
  else "".

Definition res_status (code : Z) : M unit :=
  emit (ResStatus code) ;; set_statusCode code.

Definition res_sendStatus (code : Z) : M unit :=
  emit (ResSendStatus code) ;;
  set_statusCode code ;;
  write (BText (status_message code)).

Definition res_json (v : JsVal) : M unit :=
  emit (ResJson v) ;; write (BJson v).

Definition res_send (s : string) : M unit :=
  emit (ResSend s) ;; write (BText s).

(** [next()] and [next(err)] hand over to the stages registered after the
    handler, which are not part of this file: the call is recorded. *)
Definition next (err : option NodeError) : M unit := emit (Next err).

Definition logger_Error (e : Endpoint) : M unit := emit (LoggerError e).

(** A call on a collaborator: recorded, then its outcome. *)
Definition call {A} (c : Call) (r : result A) : M A :=
  emit (Called c) ;; lift r.

(** [res.json] serialises with [JSON.stringify], which leaves out a field
    whose value is [undefined]. *)
Definition NodeError_toJSON (e : NodeError) : JsVal :=
  JObj (("type", JEnum (type e))
          :: match details e with
             | Some d => [ ("details", d) ]
             | None => []
             end).

(* ------------------------------------------------------------------ *)
(** ** Collaborators

    The classes and functions the controller imports.  A method may return
    or throw; within one run of a handler each is called at most once, so a
    function of the arguments describes any behaviour it can show there. *)

Module OperatorClient.
Record t := {
  getReadRestUrl : Request -> result URL;
  getReadRedirectUrl : Request -> option URL -> result URL;
  getDeleteRedirectUrl : Request -> option URL -> result URL;
  verifyReadResponse : JsVal -> result bool;
  buildPreferences : option JsVal -> option JsVal -> result JsVal;
  buildSeed : option JsVal -> option JsVal -> result Seed
}.
End OperatorClient.

Module PostIdsPrefsRequestBuilder.
Record t := {
  buildRestRequest : RestContext -> JsVal -> result JsVal;
  getRestUrl : result URL;
  buildRedirectRequest : RedirectContext -> JsVal -> result JsVal;
  getRedirectUrl : JsVal -> result URL
}.
End PostIdsPrefsRequestBuilder.

Module Get3PCRequestBuilder.
Record t := { getRestUrl : result URL }.
End Get3PCRequestBuilder.

Module GetNewIdRequestBuilder.
Record t := {
  buildRestRequest : RestContext -> result JsVal;
  getRestUrl : JsVal -> result URL
}.
End GetNewIdRequestBuilder.

Module DeleteIdsPrefsRequestBuilder.
Record t := {
  buildRestRequest : RestContext -> result JsVal;
  getRestUrl : JsVal -> result URL
}.
End DeleteIdsPrefsRequestBuilder.

(** The free functions: [new URL(s)], [JSON.parse(s)], [getPayload(req)]
    of [@core/express] and [fromDataToObject(data)] of
    [@core/query-string]. *)
Module Imports.
Record t := {
  new_URL : string -> result URL;
  JSON_parse : string -> result JsVal;
  getPayload : Request -> result JsVal;
  fromDataToObject : string -> result RedirectGetIdsPrefsResponse
}.
End Imports.

(** The fields of a [ClientNode] instance. *)
Record ClientNode := {
  client : OperatorClient.t;
  postIdsPrefsRequestBuilder : PostIdsPrefsRequestBuilder.t;
  get3PCRequestBuilder : Get3PCRequestBuilder.t;
  getNewIdRequestBuilder : GetNewIdRequestBuilder.t;
  deleteIdsPrefsRequestBuilder : DeleteIdsPrefsRequestBuilder.t;
  imports : Imports.t
}.

(** Modelled from the spec: the names of the two redirect query parameters,
    [proxyUriParams] of [@core/endpoints] -- section 6 names them
    [message] and [returnUrl]. *)
Module proxyUriParams.
Definition returnUrl : string := "returnUrl".
Definition message : string := "message".
End proxyUriParams.

(* ------------------------------------------------------------------ *)
(** ** The query-string helpers and the handlers *)

Section Handlers.

Variable this : ClientNode.

Definition getMandatoryQueryStringParam (req : Request) (paramName : string)
  : M (option string) :=
  match req_query req paramName with
  | None => res_sendStatus 400 ;; ret None
  | Some stringValue => ret (Some stringValue)
  end.

(** [redirectStr ? new URL(redirectStr) : undefined]: the empty string is
    falsy. *)
Definition getReturnUrl (req : Request) : M (option URL) :=
  redirectStr <- getMandatoryQueryStringParam req proxyUriParams.returnUrl ;;
  match redirectStr with
  | None => ret None
  | Some s =>
      if (s =? "")%string then ret None
      else (u <- lift (Imports.new_URL (imports this) s) ;; ret (Some u))
  end.

Definition getMessageObject (req : Request) : M (option JsVal) :=
  requestStr <- getMandatoryQueryStringParam req proxyUriParams.message ;;
  match requestStr with
  | None => ret None
  | Some s =>
      if (s =? "")%string then ret None
      else (v <- lift (Imports.JSON_parse (imports this) s) ;; ret (Some v))
  end.

Definition unknown_error : NodeError :=
  {| type := OfClientNode ClientNodeErrorType.UNKNOWN_ERROR;
     details := Some (JStr "") |}.

(** The [catch] block every handler shares, after its optional logging. *)
Definition reject (error : NodeError) : M unit :=
  res_status 400 ;;
  res_json (NodeError_toJSON error) ;;
  next (Some error).

Definition origin_of (req : Request) : RestContext :=
  {| origin := req_header req "origin" |}.

Definition restGetIdsAndPrefs (req : Request) : M unit :=
  try_catch
    (url <- call (C_getReadRestUrl req)
                 (OperatorClient.getReadRestUrl (client this) req) ;;
     res_send (URL_toString url) ;;
     next None)
    (fun _ => reject unknown_error).

Definition restWriteIdsAndPrefs (req : Request) : M unit :=
  let builder := postIdsPrefsRequestBuilder this in
  try_catch
    (unsignedRequest <- lift (Imports.getPayload (imports this) req) ;;
     signedPayload <-
       call (C_post_buildRestRequest (origin_of req) unsignedRequest)
            (PostIdsPrefsRequestBuilder.buildRestRequest builder
               (origin_of req) unsignedRequest) ;;
     url <- call C_post_getRestUrl
                 (PostIdsPrefsRequestBuilder.getRestUrl builder) ;;
     res_json (JObj [ ("payload", signedPayload);
                      ("url", JStr (URL_toString url)) ]) ;;
     next None)
    (fun _ =>
       logger_Error (JsonEndpoint jsonProxyEndpoints.write) ;;
       reject unknown_error).

Definition verify3PC (req : Request) : M unit :=
  try_catch
    (url <- call C_get3PC_getRestUrl
                 (Get3PCRequestBuilder.getRestUrl (get3PCRequestBuilder this)) ;;
     res_send (URL_toString url) ;;
     next None)
    (fun _ =>
       logger_Error (JsonEndpoint jsonProxyEndpoints.verify3PC) ;;
       reject unknown_error).

Definition getNewId (req : Request) : M unit :=
  let builder := getNewIdRequestBuilder this in
  try_catch
    (getNewIdRequestJson <-
       call (C_newId_buildRestRequest (origin_of req))
            (GetNewIdRequestBuilder.buildRestRequest builder (origin_of req)) ;;
     url <- call (C_newId_getRestUrl getNewIdRequestJson)
                 (GetNewIdRequestBuilder.getRestUrl builder
                    getNewIdRequestJson) ;;
     res_send (URL_toString url) ;;
     next None)
    (fun _ =>
       logger_Error (JsonEndpoint jsonProxyEndpoints.newId) ;;
       reject unknown_error).

Definition restDeleteIdsAndPrefs (req : Request) : M unit :=
  let builder := deleteIdsPrefsRequestBuilder this in
  try_catch
    (request <-
       call (C_delete_buildRestRequest (origin_of req))
            (DeleteIdsPrefsRequestBuilder.buildRestRequest builder
               (origin_of req)) ;;
     url <- call (C_delete_getRestUrl request)
                 (DeleteIdsPrefsRequestBuilder.getRestUrl builder request) ;;
     res_send (URL_toString url) ;;
     next None)
    (fun _ =>
       logger_Error (JsonEndpoint jsonProxyEndpoints.delete) ;;
       reject unknown_error).

Definition redirectReadIdsAndPrefs (req : Request) : M unit :=
  returnUrl <- getReturnUrl req ;;
  try_catch
    (url <- call (C_getReadRedirectUrl req returnUrl)
                 (OperatorClient.getReadRedirectUrl (client this)
                    req returnUrl) ;;
     res_send (URL_toString url) ;;
     next None)
    (fun _ =>
       logger_Error (RedirectEndpoint redirectProxyEndpoints.read) ;;
       reject unknown_error).

(** [returnUrl.toString()] on a value that may be [undefined]. *)
Definition toString_opt (u : option URL) : result string :=
  match u with
  | Some x => Ok (URL_toString x)
  | None => Throw TypeError
  end.

Definition redirectWriteIdsAndPrefs (req : Request) : M unit :=
  let builder := postIdsPrefsRequestBuilder this in
  returnUrl <- getReturnUrl req ;;
  input <- getMessageObject req ;;
  match input with
  | Some payload =>
      if truthy payload then
        try_catch
          (returnStr <- lift (toString_opt returnUrl) ;;
           let ctx := {| returnUrl := returnStr;
                         referer := req_header req "referer" |} in
           postIdsPrefsRequestJson <-
             call (C_post_buildRedirectRequest ctx payload)
                  (PostIdsPrefsRequestBuilder.buildRedirectRequest builder
                     ctx payload) ;;
           url <- call (C_post_getRedirectUrl postIdsPrefsRequestJson)
                       (PostIdsPrefsRequestBuilder.getRedirectUrl builder
                          postIdsPrefsRequestJson) ;;
           res_send (URL_toString url) ;;
           next None)
          (fun _ =>
             logger_Error (RedirectEndpoint redirectProxyEndpoints.write) ;;
             reject unknown_error)
      else ret tt
  | None => ret tt
  end.

Definition redirectDeleteIdsAndPrefs (req : Request) : M unit :=
  returnUrl <- getReturnUrl req ;;
  try_catch
    (url <- call (C_getDeleteRedirectUrl req returnUrl)
                 (OperatorClient.getDeleteRedirectUrl (client this)
                    req returnUrl) ;;
     res_send (URL_toString url) ;;
     next None)
    (fun _ =>
       logger_Error (RedirectEndpoint redirectProxyEndpoints.delete) ;;
       reject unknown_error).

(** [message.error.message]: a [TypeError] when [error] is [undefined]. *)
Definition error_message (e : option ErrorEnvelope)
  : result (option JsVal) :=
  match e with
  | Some x => Ok (message x)
  | None => Throw TypeError
  end.

(** The branch taken when [!message.response]. *)
Definition relay_operator_error (message : RedirectGetIdsPrefsResponse)
  : M unit :=
  logger_Error (JsonEndpoint jsonProxyEndpoints.verifyRead) ;;
  d <- lift (error_message (error message)) ;;
  reject {| type := OfOperator OperatorErrorType.UNKNOWN_ERROR;
            details := d |}.

Definition verification_failed : NodeError :=
  {| type := OfClientNode ClientNodeErrorType.VERIFICATION_FAILED;
     details := Some (JStr "") |}.

Definition verifyOperatorReadResponse (req : Request) : M unit :=
  let ep := JsonEndpoint jsonProxyEndpoints.verifyRead in
  message <- lift (Imports.fromDataToObject (imports this) (body req)) ;;
  match response message with
  | None => relay_operator_error message
  | Some r =>
      if negb (truthy r) then relay_operator_error message
      else
        try_catch
          (verification <-
             call (C_verifyReadResponse r)
                  (OperatorClient.verifyReadResponse (client this) r) ;;
           if negb verification then
             (logger_Error ep ;; reject verification_failed)
           else
             (res_json r ;; next None))
          (fun _ => logger_Error ep ;; reject unknown_error)
  end.

Definition signPreferences (req : Request) : M unit :=
  try_catch
    (payload <- lift (Imports.getPayload (imports this) req) ;;
     identifiers <- lift (get_prop payload "identifiers") ;;
     unsignedPreferences <- lift (get_prop payload "unsignedPreferences") ;;
     unsignedData <- lift (get_prop_opt unsignedPreferences "data") ;;
     prefs <- call (C_buildPreferences identifiers unsignedData)
                   (OperatorClient.buildPreferences (client this)
                      identifiers unsignedData) ;;
     res_json prefs ;;
     next None)
    (fun _ =>
       logger_Error (JsonEndpoint jsonProxyEndpoints.signPrefs) ;;
       reject unknown_error).

Definition createSeed (req : Request) : M unit :=
  try_catch
    (request <- lift (Imports.JSON_parse (imports this) (body req)) ;;
     transaction_ids <- lift (get_prop request "transaction_ids") ;;
     data <- lift (get_prop request "data") ;;
     seed <- call (C_buildSeed transaction_ids data)
                  (OperatorClient.buildSeed (client this)
                     transaction_ids data) ;;
     res_json (Seed_toJSON seed) ;;
     next None)
    (fun _ =>
       logger_Error (JsonEndpoint jsonProxyEndpoints.createSeed) ;;
       reject unknown_error).

End Handlers.

(* ------------------------------------------------------------------ *)
(** ** The routes the constructor registers *)

Inductive Method := GET | POST | DELETE | OPTIONS.

Inductive Handler :=
| h_restGetIdsAndPrefs
| h_restWriteIdsAndPrefs
| h_verify3PC
| h_getNewId
| h_restDeleteIdsAndPrefs
| h_redirectReadIdsAndPrefs
| h_redirectWriteIdsAndPrefs
| h_redirectDeleteIdsAndPrefs
| h_verifyOperatorReadResponse
| h_signPreferences
| h_createSeed.

Definition handle (this : ClientNode) (h : Handler) : Request -> M unit :=
  match h with
  | h_restGetIdsAndPrefs => restGetIdsAndPrefs this
  | h_restWriteIdsAndPrefs => restWriteIdsAndPrefs this
  | h_verify3PC => verify3PC this
  | h_getNewId => getNewId this
  | h_restDeleteIdsAndPrefs => restDeleteIdsAndPrefs this
  | h_redirectReadIdsAndPrefs => redirectReadIdsAndPrefs this
  | h_redirectWriteIdsAndPrefs => redirectWriteIdsAndPrefs this
  | h_redirectDeleteIdsAndPrefs => redirectDeleteIdsAndPrefs this
  | h_verifyOperatorReadResponse => verifyOperatorReadResponse this
  | h_signPreferences => signPreferences this
  | h_createSeed => createSeed this
  end.

Inductive Stage :=
| cors
| checkOrigin
| checkReferer
| checkReturnUrl
| startSpan (e : Endpoint)
| business (h : Handler)
| handleErrors (e : Endpoint)
| endSpan (e : Endpoint).

Record Route := {
  method : Method;
  path : Endpoint;
  stages : list Stage
}.

Definition json_route (m : Method) (e : jsonProxyEndpoints.t) (h : Handler)
  : Route :=
  {| method := m;
     path := JsonEndpoint e;
     stages := [ cors; checkOrigin; startSpan (JsonEndpoint e); business h;
                 handleErrors (JsonEndpoint e); endSpan (JsonEndpoint e) ] |}.

Definition redirect_route (e : redirectProxyEndpoints.t) (h : Handler)
  : Route :=
  {| method := GET;
     path := RedirectEndpoint e;
     stages := [ cors; checkReferer; checkReturnUrl;
                 startSpan (RedirectEndpoint e); business h;
                 handleErrors (RedirectEndpoint e);
                 endSpan (RedirectEndpoint e) ] |}.

(** The registrations of the constructor, in source order. *)
Definition routes : list Route :=
  [ json_route GET jsonProxyEndpoints.read h_restGetIdsAndPrefs;
    json_route POST jsonProxyEndpoints.write h_restWriteIdsAndPrefs;
    json_route GET jsonProxyEndpoints.verify3PC h_verify3PC;
    json_route GET jsonProxyEndpoints.newId h_getNewId;
    {| method := OPTIONS;
       path := JsonEndpoint jsonProxyEndpoints.delete;
       stages := [ cors ] |};
    json_route DELETE jsonProxyEndpoints.delete h_restDeleteIdsAndPrefs;
    redirect_route redirectProxyEndpoints.read h_redirectReadIdsAndPrefs;
    redirect_route redirectProxyEndpoints.write h_redirectWriteIdsAndPrefs;
    redirect_route redirectProxyEndpoints.delete h_redirectDeleteIdsAndPrefs;
    json_route POST jsonProxyEndpoints.verifyRead
      h_verifyOperatorReadResponse;
    json_route POST jsonProxyEndpoints.signPrefs h_signPreferences;
    json_route POST jsonProxyEndpoints.createSeed h_createSeed ].

(** The validation stages of an endpoint family. *)
Definition gate (e : Endpoint) : list Stage :=
  match e with
  | JsonEndpoint _ => [ cors; checkOrigin ]
  | RedirectEndpoint _ => [ cors; checkReferer; checkReturnUrl ]
  end.

(** Express runs the stages of a route in order, each one only when the
    one before it has called [next()]: [passes s] says whether stage [s]
    does so on the request at hand. *)
Fixpoint invoked (passes : Stage -> bool) (l : list Stage) : list Stage :=
  match l with
  | [] => []
  | s :: r => s :: (if passes s then invoked passes r else [])
  end.

Definition is_redirect (h : Handler) : bool :=
  match h with
  | h_redirectReadIdsAndPrefs
  | h_redirectWriteIdsAndPrefs
  | h_redirectDeleteIdsAndPrefs => true
  | _ => false
  end.

(* ------------------------------------------------------------------ *)
(** ** Observing a run *)

Definition Outcome : Type := result unit * World.

(** A handler run on a response nothing has been written to. *)
Definition run (m : M unit) : Outcome := m fresh.

(** The HTTP response the client receives, if the handler sent one. *)
Definition responded (o : Outcome) : option (Z * Body) := sent (res (snd o)).

(** The exception that left the handler, if one did. *)
Definition escaped (o : Outcome) : option Exn :=
  match fst o with
  | Ok _ => None
  | Throw e => Some e
  end.

Definition events (o : Outcome) : list Event := trace (snd o).

(** An event that tries to send a response. *)
Definition is_send (e : Event) : bool :=
  match e with
  | ResSendStatus _ | ResJson _ | ResSend _ => true
  | _ => false
  end.

Definition send_attempts (o : Outcome) : nat :=
  length (filter is_send (events o)).

(** The body is the JSON of an error object [{ type, details }]. *)
Definition error_body (b : Body) : Prop :=
  exists e : NodeError, b = BJson (NodeError_toJSON e).

(** The field names of a JSON object body. *)
Definition body_fields (b : Body) : option (list string) :=
  match b with
  | BJson (JObj fields) => Some (map fst fields)
  | _ => None
  end.

(* ------------------------------------------------------------------ *)
(** ** The seed builder *)

Fixpoint strings_of (xs : list JsVal) : option (list string) :=
  match xs with
  | [] => Some []
  | JStr s :: r =>
      match strings_of r with
      | Some l => Some (s :: l)
      | None => None
      end
  | _ => None
  end.

Module SeedBuilder.

(** What signing a seed draws on: the node's own host, the clock, the
    current signing key (absent when rotation has lapsed), the Seed
    signing definition and the signature engine. *)
Record Env := {
  selfHost : string;
  now : Z;
  getSigningKey : result string;
  canonicalize : list string -> JsVal -> Z -> result string;
  sign : string -> string -> string
}.

(** Modelled from the spec: [OperatorClient.buildSeed], whose class is not
    in this file -- section 4.7: it canonicalizes (transactionIds, data,
    now()) via the Seed definition, signs with the caller's current signing
    key and returns the signed hop; section 4.1: canonicalization raises a
    structural error on a missing required field and never guesses
    defaults; section 3: transactionIds is an ordered sequence of strings. *)
Definition buildSeed (env : Env) (transaction_ids data : option JsVal)
  : result Seed :=
  match transaction_ids, data with
  | Some (JArr xs), Some d =>
      match strings_of xs with
      | Some ids =>
          match canonicalize env ids d (now env) with
          | Ok bytes =>
              match getSigningKey env with
              | Ok key =>
                  Ok {| transactionIds := ids;
                        data := d;
                        signature := sign env key bytes;
                        signerHost := selfHost env;
                        timestamp := now env |}
              | Throw e => Throw e
              end
          | Throw e => Throw e
          end
      | None => Throw (Raised "transaction_ids: not an array of strings")
      end
  | _, _ => Throw (Raised "missing required field")
  end.

End SeedBuilder.

(* ------------------------------------------------------------------ *)
(** ** A concrete node for the examples

    A vendor node at [vendor.example] in front of an operator at
    [operator.example], with collaborators reduced to what the examples
    exercise. *)
Module Sample.

Definition starts_with (p s : string) : bool :=
  (substring 0 (String.length p) s =? p)%string.

(** [new URL(s)] accepts an absolute https URL and throws a [TypeError] on
    anything else. *)
Definition new_URL (s : string) : result URL :=
  if starts_with "https://" s then Ok (mkURL s) else Throw TypeError.

(** JSON texts are written with [dq] for the double quote. *)
Definition dq : string := String (Ascii.ascii_of_nat 34) "".
Definition quoted (s : string) : string := (dq ++ s ++ dq)%string.

(** The text of [{ transaction_ids: [t1, t2], data: { note: x } }]. *)
Definition seed_text : string :=
  ("{" ++ quoted "transaction_ids" ++ ":[" ++ quoted "t1" ++ ","
       ++ quoted "t2" ++ "]," ++ quoted "data" ++ ":{" ++ quoted "note" ++ ":"
       ++ quoted "x" ++ "}}")%string.

(** The text of [{ identifiers: [id1], preferences: { optIn: true } }]. *)
Definition ids_prefs_text : string :=
  ("{" ++ quoted "identifiers" ++ ":[" ++ quoted "id1" ++ "],"
       ++ quoted "preferences" ++ ":{" ++ quoted "optIn" ++ ":true}}")%string.

(** [JSON.parse] on the few texts used below; a [SyntaxError] otherwise. *)
Definition JSON_parse (s : string) : result JsVal :=
  match assoc s
          [ ("null", JNull);
            ("{}", JObj []);
            (ids_prefs_text,
             JObj [ ("identifiers", JArr [JStr "id1"]);
                    ("preferences", JObj [ ("optIn", JBool true) ]) ]);
            (seed_text,
             JObj [ ("transaction_ids", JArr [JStr "t1"; JStr "t2"]);
                    ("data", JObj [ ("note", JStr "x") ]) ]) ] with
  | Some v => Ok v
  | None => Throw SyntaxError
  end.

Definition operator_url (p : string) : URL :=
  mkURL ("https://operator.example" ++ p)%string.

Definition sign (payload : JsVal) : JsVal :=
  JObj [ ("sender", JStr "vendor.example"); ("body", payload) ].

Definition fromDataToObject (s : string) : result RedirectGetIdsPrefsResponse :=
  if (s =? "response")%string then
    Ok {| response := Some (JObj [ ("identifiers", JArr []) ]);
          error := None |}
  else if (s =? "error")%string then
    Ok {| response := None;
          error := Some {| message := Some (JStr "no such user") |} |}
  else
    Ok {| response := None; error := None |}.

Definition seed_env : SeedBuilder.Env :=
  {| SeedBuilder.selfHost := "vendor.example";
     SeedBuilder.now := 1656000000;
     SeedBuilder.getSigningKey := Ok "vendor-key";
     SeedBuilder.canonicalize :=
       fun ids _ _ => Ok (String.concat "." ids);
     SeedBuilder.sign := fun key bytes => (key ++ ":" ++ bytes)%string |}.

Definition trusting_client : OperatorClient.t :=
  {| OperatorClient.getReadRestUrl :=
       fun _ => Ok (operator_url "/paf/v1/ids-prefs");
     OperatorClient.getReadRedirectUrl :=
       fun _ _ => Ok (operator_url "/paf/v1/redirect/get-ids-prefs");
     OperatorClient.getDeleteRedirectUrl :=
       fun _ _ => Ok (operator_url "/paf/v1/redirect/delete-ids-prefs");
     OperatorClient.verifyReadResponse := fun _ => Ok true;
     OperatorClient.buildPreferences := fun _ _ => Ok (JObj []);
     OperatorClient.buildSeed := SeedBuilder.buildSeed seed_env |}.

(** The same client with a verifier that rejects every response. *)
Definition distrustful_client : OperatorClient.t :=
  {| OperatorClient.getReadRestUrl := OperatorClient.getReadRestUrl trusting_client;
     OperatorClient.getReadRedirectUrl :=
       OperatorClient.getReadRedirectUrl trusting_client;
     OperatorClient.getDeleteRedirectUrl :=
       OperatorClient.getDeleteRedirectUrl trusting_client;
     OperatorClient.verifyReadResponse := fun _ => Ok false;
     OperatorClient.buildPreferences := OperatorClient.buildPreferences trusting_client;
     OperatorClient.buildSeed := OperatorClient.buildSeed trusting_client |}.

Definition node_with (c : OperatorClient.t) : ClientNode :=
  {| client := c;
     postIdsPrefsRequestBuilder :=
       {| PostIdsPrefsRequestBuilder.buildRestRequest :=
            fun _ p => Ok (sign p);
          PostIdsPrefsRequestBuilder.getRestUrl :=
            Ok (operator_url "/paf/v1/ids-prefs");
          PostIdsPrefsRequestBuilder.buildRedirectRequest :=
            fun _ p => Ok (sign p);
          PostIdsPrefsRequestBuilder.getRedirectUrl :=
            fun _ => Ok (operator_url "/paf/v1/redirect/post-ids-prefs") |};
     get3PCRequestBuilder :=
       {| Get3PCRequestBuilder.getRestUrl :=
            Ok (operator_url "/paf/v1/3pc") |};
     getNewIdRequestBuilder :=
       {| GetNewIdRequestBuilder.buildRestRequest := fun _ => Ok (sign JNull);
          GetNewIdRequestBuilder.getRestUrl :=
            fun _ => Ok (operator_url "/paf/v1/new-id") |};
     deleteIdsPrefsRequestBuilder :=
       {| DeleteIdsPrefsRequestBuilder.buildRestRequest :=
            fun _ => Ok (sign JNull);
          DeleteIdsPrefsRequestBuilder.getRestUrl :=
            fun _ => Ok (operator_url "/paf/v1/ids-prefs") |};
     imports :=
       {| Imports.new_URL := new_URL;
          Imports.JSON_parse := JSON_parse;
          Imports.getPayload := fun req => JSON_parse (body req);
          Imports.fromDataToObject := fromDataToObject |} |}.

Definition node : ClientNode := node_with trusting_client.

Definition request (q : list (string * string)) (b : string) : Request :=
  {| query := q;
     headers := [ ("origin", "https://vendor.example");
                  ("referer", "https://vendor.example/page") ];
     body := b |}.

End Sample.

(* ------------------------------------------------------------------ *)
(** ** Inputs the handlers do not guard *)

(** [getReturnUrl] returns rather than throws: the parameter is absent,
    empty, or accepted by [new URL]. *)
Definition getReturnUrl_returns (this : ClientNode) (req : Request) : bool :=
  match req_query req proxyUriParams.returnUrl with
  | None => true
  | Some s =>
      if (s =? "")%string then true
      else match Imports.new_URL (imports this) s with
           | Ok _ => true
           | Throw _ => false
           end
  end.

(** The three inputs whose exception is raised outside the [try] block of
    the handler, with the exception raised. *)
Inductive Unguarded (this : ClientNode) (req : Request)
  : Handler -> Exn -> Prop :=
| unparseable_returnUrl (h : Handler) (s : string) (e : Exn) :
    is_redirect h = true ->
    req_query req proxyUriParams.returnUrl = Some s ->
    (s =? "")%string = false ->
    Imports.new_URL (imports this) s = Throw e ->
    Unguarded this req h e
| unparseable_message (s : string) (e : Exn) :
    getReturnUrl_returns this req = true ->
    req_query req proxyUriParams.message = Some s ->
    (s =? "")%string = false ->
    Imports.JSON_parse (imports this) s = Throw e ->
    Unguarded this req h_redirectWriteIdsAndPrefs e
| empty_envelope (msg : RedirectGetIdsPrefsResponse) :
    Imports.fromDataToObject (imports this) (body req) = Ok msg ->
    response msg = None ->
    error msg = None ->
    Unguarded this req h_verifyOperatorReadResponse TypeError.

(** The handlers whose whole body is one [try]/[catch]. *)
Definition guarded (h : Handler) : bool :=
  match h with
  | h_restGetIdsAndPrefs
  | h_restWriteIdsAndPrefs
  | h_verify3PC
  | h_getNewId
  | h_restDeleteIdsAndPrefs
  | h_signPreferences
  | h_createSeed => true
  | _ => false
  end.

(** The collaborator call of the redirect read and delete handlers. *)
Definition redirect_call (h : Handler) (req : Request) (u : option URL)
  : Call :=
  match h with
  | h_redirectDeleteIdsAndPrefs => C_getDeleteRedirectUrl req u
  | _ => C_getReadRedirectUrl req u
  end.

(** The verify-read handler relays an operator error that has no
    [message]: the body carries no [response] worth verifying, and its
    [error] is there but reads [undefined] for [message]. *)
Definition relays_error_without_message
  (this : ClientNode) (h : Handler) (req : Request) : Prop :=
  h = h_verifyOperatorReadResponse
  /\ exists msg env,
       Imports.fromDataToObject (imports this) (body req) = Ok msg
       /\ match response msg with
          | Some r => truthy r = false
          | None => True
          end
       /\ error msg = Some env
       /\ message env = None.

(** The answer is 400 with a JSON object of the two fields [type] and
    [details]. *)
Definition two_field_error (o : Outcome) : Prop :=
  exists b, responded o = Some (400, b)
            /\ body_fields b = Some [ "type"; "details" ].

(** A redirect request that lacks [message] or [returnUrl] is answered
    400. *)
Definition missing_parameter_rejected
  (this : ClientNode) (h : Handler) (req : Request) : Prop :=
  req_query req proxyUriParams.message = None
  \/ req_query req proxyUriParams.returnUrl = None ->
  exists b, responded (run (handle this h req)) = Some (400, b).

(* ------------------------------------------------------------------ *)
(** ** Projections of a run *)

(** The arguments of the calls to [next], in order. *)
Definition nexts (o : Outcome) : list (option NodeError) :=
  flat_map (fun ev => match ev with Next err => [ err ] | _ => [] end)
           (events o).

(** The endpoints passed to [logger.Error], in order. *)
Definition logged (o : Outcome) : list Endpoint :=
  flat_map (fun ev => match ev with LoggerError e => [ e ] | _ => [] end)
           (events o).

(** The calls made on the client and the builders, in order. *)
Definition calls (o : Outcome) : list Call :=
  flat_map (fun ev => match ev with Called c => [ c ] | _ => [] end)
           (events o).

(** The last thing the handler did. *)
Definition last_event (o : Outcome) : option Event :=
  hd_error (rev (events o)).

(** The client method behind the redirect read and delete handlers. *)
Definition redirect_url_of (this : ClientNode) (h : Handler)
  : Request -> option URL -> result URL :=
  match h with
  | h_redirectDeleteIdsAndPrefs =>
      OperatorClient.getDeleteRedirectUrl (client this)
  | _ => OperatorClient.getReadRedirectUrl (client this)
  end.

(** The sample node behind a body parser that also accepts a
    sign-preferences payload, sent as the body [prefs]. *)
Module SampleForms.

Definition sign_prefs_payload : JsVal :=
  JObj [ ("identifiers", JArr [ JStr "id1" ]);
         ("unsignedPreferences",
          JObj [ ("data", JObj [ ("optIn", JBool true) ]) ]) ].

Definition getPayload (req : Request) : result JsVal :=
  if (body req =? "prefs")%string then Ok sign_prefs_payload
  else Sample.JSON_parse (body req).

Definition node : ClientNode :=
  {| client := client Sample.node;
     postIdsPrefsRequestBuilder := postIdsPrefsRequestBuilder Sample.node;
     get3PCRequestBuilder := get3PCRequestBuilder Sample.node;
     getNewIdRequestBuilder := getNewIdRequestBuilder Sample.node;
     deleteIdsPrefsRequestBuilder := deleteIdsPrefsRequestBuilder Sample.node;
     imports :=
       {| Imports.new_URL := Sample.new_URL;
          Imports.JSON_parse := Sample.JSON_parse;
          Imports.getPayload := getPayload;
          Imports.fromDataToObject := Sample.fromDataToObject |} |}.

End SampleForms.

(** The sample node behind an operator that may also answer with the
    envelope [{ error: {} }], sent as the body [bare error]. *)
Module SampleEnvelopes.

Definition fromDataToObject (s : string) : result RedirectGetIdsPrefsResponse :=
  if (s =? "bare error")%string then
    Ok {| response := None; error := Some {| message := None |} |}
  else Sample.fromDataToObject s.

Definition node : ClientNode :=
  {| client := client Sample.node;
     postIdsPrefsRequestBuilder := postIdsPrefsRequestBuilder Sample.node;
     get3PCRequestBuilder := get3PCRequestBuilder Sample.node;
     getNewIdRequestBuilder := getNewIdRequestBuilder Sample.node;
     deleteIdsPrefsRequestBuilder := deleteIdsPrefsRequestBuilder Sample.node;
     imports :=
       {| Imports.new_URL := Sample.new_URL;
          Imports.JSON_parse := Sample.JSON_parse;
          Imports.getPayload := fun req => Sample.JSON_parse (body req);
          Imports.fromDataToObject := fromDataToObject |} |}.

End SampleEnvelopes.

(* ------------------------------------------------------------------ *)
(** ** Proof tools *)

(** Unfolds a handler down to the collaborators' results. *)
Ltac unfold_handlers :=
  cbv beta iota zeta delta
    [ run handle responded escaped events
      restGetIdsAndPrefs restWriteIdsAndPrefs verify3PC getNewId
      restDeleteIdsAndPrefs redirectReadIdsAndPrefs redirectWriteIdsAndPrefs
      redirectDeleteIdsAndPrefs verifyOperatorReadResponse signPreferences
      createSeed relay_operator_error reject getReturnUrl getMessageObject
      getMandatoryQueryStringParam origin_of
      bind ret lift try_catch call emit write set_statusCode
      res_status res_sendStatus res_json res_send next logger_Error
      headersSent fresh fst snd res trace sent statusCode app ].

Tactic Notation "unfold_handlers" "in" hyp(H) :=
  cbv beta iota zeta delta
    [ run handle responded escaped events
      restGetIdsAndPrefs restWriteIdsAndPrefs verify3PC getNewId
      restDeleteIdsAndPrefs redirectReadIdsAndPrefs redirectWriteIdsAndPrefs
      redirectDeleteIdsAndPrefs verifyOperatorReadResponse signPreferences
      createSeed relay_operator_error reject getReturnUrl getMessageObject
      getMandatoryQueryStringParam origin_of
      bind ret lift try_catch call emit write set_statusCode
      res_status res_sendStatus res_json res_send next logger_Error
      headersSent fresh fst snd res trace sent statusCode app ] in H.

(** Splits on the scrutinee of a [match] in hypothesis [H], keeping the
    equation. *)
Ltac split_match_in H :=
  match type of H with
  | context [match ?x with _ => _ end] =>
      lazymatch x with
      | context [match _ with _ => _ end] => fail
      | _ => let E := fresh "E" in destruct x eqn:E
      end
  end.

Ltac split_match_goal :=
  match goal with
  | |- context [match ?x with _ => _ end] =>
      lazymatch x with
      | context [match _ with _ => _ end] => fail
      | _ => let E := fresh "E" in destruct x eqn:E
      end
  end.

(** Replays in the goal the case equations collected from a hypothesis. *)
Ltac rewrite_results :=
  repeat match goal with
         | E : ?x = _ |- context [match ?x with _ => _ end] =>
             rewrite E; cbv beta iota
         end.

(** The two shapes of a 400 answer: the JSON error of a catch block, and
    the bare status of a missing query parameter. *)
Ltac json_error_case :=
  split; [ reflexivity | left; split; [ eexists; reflexivity | reflexivity ] ].

Ltac bare_status_case :=
  split;
  [ reflexivity
  | right; repeat split; try reflexivity;
    unfold proxyUriParams.returnUrl, proxyUriParams.message;
    first [ left; assumption
          | right; split; [ reflexivity | assumption ] ] ].

(** Chooses a member of a concrete list, with backtracking. *)
Ltac pick_member := (left; reflexivity) + (right; pick_member).

(* ------------------------------------------------------------------ *)
(** ** Routes: validation before the handler *)

(** Every handler is registered on some route. *)
Lemma every_handler_registered (h : Handler) :
  exists r, In r routes /\ In (business h) (stages r).
Proof.
  destruct h; eexists;
    (split; [ simpl; pick_member | simpl; solve [ auto 8 ] ]).
Qed.

(** C3.  On every registered route the stage list is the endpoint family's
    validation stages ([cors], [checkOrigin] for a JSON endpoint; [cors],
    [checkReferer], [checkReturnUrl] for a redirect endpoint), then the
    span opener, then the business handler; and whenever the handler is
    invoked, each validation stage was invoked before it and called
    [next()]. *)
Theorem validation_precedes_handler :
  forall (r : Route) (h : Handler),
    In r routes ->
    In (business h) (stages r) ->
    (exists post,
        stages r
        = gate (path r) ++ startSpan (path r) :: business h :: post)
    /\ (forall passes : Stage -> bool,
           In (business h) (invoked passes (stages r)) ->
           Forall (fun g => passes g = true) (gate (path r))
           /\ exists post',
               invoked passes (stages r)
               = gate (path r) ++ startSpan (path r) :: business h :: post').
Proof.
  intros r h Hr Hh.
  simpl in Hr.
  repeat (destruct Hr as [<- | Hr]); try contradiction;
    simpl in Hh;
    repeat (destruct Hh as [Hh | Hh]; try discriminate Hh);
    try contradiction;
    injection Hh as <-;
    (split; [ eexists; reflexivity | ]);
    intros passes Hin; simpl in Hin |- *;
    repeat match goal with
           | |- context [if passes ?s then _ else _] =>
               let E := fresh "E" in destruct (passes s) eqn:E; simpl in Hin
           end;
    repeat (destruct Hin as [Hin | Hin]; try discriminate Hin);
    try contradiction;
    (split; [ repeat constructor; assumption | eexists; reflexivity ]).
Qed.

Lemma validation_precedes_handler_witness :
  let r := redirect_route redirectProxyEndpoints.write
             h_redirectWriteIdsAndPrefs in
  (exists post,
      stages r
      = gate (path r) ++ startSpan (path r)
          :: business h_redirectWriteIdsAndPrefs :: post)
  /\ (forall passes : Stage -> bool,
         In (business h_redirectWriteIdsAndPrefs)
            (invoked passes (stages r)) ->
         Forall (fun g => passes g = true) (gate (path r))
         /\ exists post',
             invoked passes (stages r)
             = gate (path r) ++ startSpan (path r)
                 :: business h_redirectWriteIdsAndPrefs :: post').
Proof.
  intro r.
  apply (validation_precedes_handler r h_redirectWriteIdsAndPrefs).
  - simpl. do 7 right. left. reflexivity.
  - simpl. do 4 right. left. reflexivity.
Defined.

(* ------------------------------------------------------------------ *)
(** ** Verifying the operator's read response *)

(** C4.  When the parsed body has no [response] and carries the
    operator's error envelope [{ error: { message } }], the handler logs,
    answers 400 with the JSON object whose [type] is the member
    [UNKNOWN_ERROR] of [OperatorErrorType] and whose [details] is the
    envelope's message unchanged, hands the same error to [next], and
    never calls the verifier. *)
Theorem operator_error_relayed :
  forall (this : ClientNode) (req : Request)
         (msg : RedirectGetIdsPrefsResponse) (m : string),
    Imports.fromDataToObject (imports this) (body req) = Ok msg ->
    response msg = None ->
    error msg = Some {| message := Some (JStr m) |} ->
    let relayed :=
      {| type := OfOperator OperatorErrorType.UNKNOWN_ERROR;
         details := Some (JStr m) |} in
    run (verifyOperatorReadResponse this req)
    = (Ok tt,
       {| res := {| statusCode := 400;
                    sent := Some (400, BJson (NodeError_toJSON relayed)) |};
          trace := [ LoggerError (JsonEndpoint jsonProxyEndpoints.verifyRead);
                     ResStatus 400;
                     ResJson (NodeError_toJSON relayed);
                     Next (Some relayed) ] |}).
Proof.
  intros this req msg m Hparse Hresp Herr relayed.
  unfold_handlers.
  rewrite Hparse, Hresp, Herr.
  reflexivity.
Qed.

Lemma operator_error_relayed_witness :
  responded
    (run (verifyOperatorReadResponse Sample.node (Sample.request [] "error")))
  = Some (400,
          BJson (JObj [ ("type",
                         JEnum (OfOperator OperatorErrorType.UNKNOWN_ERROR));
                        ("details", JStr "no such user") ])).
Proof.
  rewrite (operator_error_relayed Sample.node (Sample.request [] "error")
             {| response := None;
                error := Some {| message := Some (JStr "no such user") |} |}
             "no such user"); reflexivity.
Defined.

(** C5.  When the body carries a response, the verifier's verdict decides:
    on [false] the answer is 400 with a JSON error of type
    [VERIFICATION_FAILED], which is not the [UNKNOWN_ERROR] type of the
    catch blocks nor the operator's; on [true] the answer is the operator's
    response itself, unchanged, with status 200. *)
Theorem verification_verdict :
  forall (this : ClientNode) (req : Request)
         (msg : RedirectGetIdsPrefsResponse) (r : JsVal) (verdict : bool),
    Imports.fromDataToObject (imports this) (body req) = Ok msg ->
    response msg = Some r ->
    truthy r = true ->
    OperatorClient.verifyReadResponse (client this) r = Ok verdict ->
    responded (run (verifyOperatorReadResponse this req))
    = Some (if verdict then (200, BJson r)
            else (400, BJson (NodeError_toJSON verification_failed)))
    /\ escaped (run (verifyOperatorReadResponse this req)) = None
    /\ type verification_failed
       = OfClientNode ClientNodeErrorType.VERIFICATION_FAILED
    /\ type verification_failed <> type unknown_error
    /\ (forall d,
           NodeError_toJSON verification_failed
           <> NodeError_toJSON
                {| type := OfOperator OperatorErrorType.UNKNOWN_ERROR;
                   details := d |}).
Proof.
  intros this req msg r verdict Hparse Hresp Htruthy Hverify.
  unfold_handlers.
  rewrite Hparse, Hresp, Htruthy. simpl. rewrite Hverify.
  destruct verdict; simpl; repeat split; try discriminate.
Qed.

Lemma verification_verdict_witness :
  responded
    (run (verifyOperatorReadResponse
            (Sample.node_with Sample.distrustful_client)
            (Sample.request [] "response")))
  = Some (400,
          BJson (JObj [ ("type",
                         JEnum (OfClientNode
                                  ClientNodeErrorType.VERIFICATION_FAILED));
                        ("details", JStr "") ])).
Proof.
  apply (verification_verdict (Sample.node_with Sample.distrustful_client)
           (Sample.request [] "response")
           {| response := Some (JObj [ ("identifiers", JArr []) ]);
              error := None |}
           (JObj [ ("identifiers", JArr []) ]) false);
    reflexivity.
Defined.

(* ------------------------------------------------------------------ *)
(** ** Writing identifiers and preferences *)

(** C6.  A run of the JSON write handler that answers 200 has signed the
    request payload under the context [{ origin }] read from the Origin
    header, has asked the builder for the operator URL, and has answered
    with the JSON object of exactly the two fields [payload] (the signed
    message) and [url] (that URL as a string). *)
Theorem rest_write_success :
  forall (this : ClientNode) (req : Request) (b : Body),
    responded (run (restWriteIdsAndPrefs this req)) = Some (200, b) ->
    let builder := postIdsPrefsRequestBuilder this in
    let ctx := {| origin := req_header req "origin" |} in
    exists (unsignedRequest signedPayload : JsVal) (url : URL),
      Imports.getPayload (imports this) req = Ok unsignedRequest
      /\ PostIdsPrefsRequestBuilder.buildRestRequest builder ctx
           unsignedRequest = Ok signedPayload
      /\ PostIdsPrefsRequestBuilder.getRestUrl builder = Ok url
      /\ b = BJson (JObj [ ("payload", signedPayload);
                           ("url", JStr (URL_toString url)) ])
      /\ body_fields b = Some [ "payload"; "url" ]
      /\ events (run (restWriteIdsAndPrefs this req))
         = [ Called (C_post_buildRestRequest ctx unsignedRequest);
             Called C_post_getRestUrl;
             ResJson (JObj [ ("payload", signedPayload);
                             ("url", JStr (URL_toString url)) ]);
             Next None ].
Proof.
  intros this req b H. cbv zeta.
  unfold_handlers in H.
  repeat split_match_in H; simpl in H; try discriminate H.
  injection H as <-.
  do 3 eexists.
  repeat split; try eassumption; try reflexivity.
  unfold_handlers. rewrite_results. reflexivity.
Qed.

Lemma rest_write_success_witness :
  exists (unsignedRequest signedPayload : JsVal) (url : URL),
    Imports.getPayload (imports Sample.node)
      (Sample.request [] Sample.ids_prefs_text) = Ok unsignedRequest
    /\ PostIdsPrefsRequestBuilder.buildRestRequest
         (postIdsPrefsRequestBuilder Sample.node)
         {| origin := Some "https://vendor.example" |}
         unsignedRequest = Ok signedPayload
    /\ PostIdsPrefsRequestBuilder.getRestUrl
         (postIdsPrefsRequestBuilder Sample.node) = Ok url
    /\ responded
         (run (restWriteIdsAndPrefs Sample.node
                 (Sample.request [] Sample.ids_prefs_text)))
       = Some (200, BJson (JObj [ ("payload", signedPayload);
                                  ("url", JStr (URL_toString url)) ])).
Proof.
  destruct (rest_write_success Sample.node
              (Sample.request [] Sample.ids_prefs_text)
              (BJson (JObj [ ("payload",
                              Sample.sign
                                (JObj [ ("identifiers", JArr [JStr "id1"]);
                                        ("preferences",
                                         JObj [ ("optIn", JBool true) ]) ]));
                             ("url",
                              JStr "https://operator.example/paf/v1/ids-prefs")
                           ]))
              eq_refl)
    as (u & s & url & Hu & Hs & Hurl & Hb & _).
  exists u, s, url. repeat split; try assumption.
  rewrite <- Hb. reflexivity.
Defined.

(** C7.  A run of the redirect write handler that answers 200 has parsed
    the [returnUrl] parameter as a URL and the [message] parameter as
    JSON, has signed the message under the redirect context made of that
    URL as a string and of the Referer header, and has answered with the
    string of the URL that [getRedirectUrl] gives for the signed message. *)
Theorem redirect_write_success :
  forall (this : ClientNode) (req : Request) (b : Body),
    responded (run (redirectWriteIdsAndPrefs this req)) = Some (200, b) ->
    let builder := postIdsPrefsRequestBuilder this in
    exists (redirectStr requestStr : string) (u : URL)
           (input signed : JsVal) (url : URL),
      req_query req proxyUriParams.returnUrl = Some redirectStr
      /\ Imports.new_URL (imports this) redirectStr = Ok u
      /\ req_query req proxyUriParams.message = Some requestStr
      /\ Imports.JSON_parse (imports this) requestStr = Ok input
      /\ let ctx := {| returnUrl := URL_toString u;
                       referer := req_header req "referer" |} in
         PostIdsPrefsRequestBuilder.buildRedirectRequest builder ctx input
         = Ok signed
         /\ PostIdsPrefsRequestBuilder.getRedirectUrl builder signed = Ok url
         /\ b = BText (URL_toString url)
         /\ events (run (redirectWriteIdsAndPrefs this req))
            = [ Called (C_post_buildRedirectRequest ctx input);
                Called (C_post_getRedirectUrl signed);
                ResSend (URL_toString url);
                Next None ].
Proof.
  intros this req b H. cbv zeta.
  unfold_handlers in H. unfold toString_opt in H.
  repeat (split_match_in H; simpl in H; try discriminate H).
  injection H as <-.
  do 6 eexists.
  repeat split; try eassumption; try reflexivity.
  unfold_handlers. unfold toString_opt. rewrite_results. reflexivity.
Qed.

Lemma redirect_write_success_witness :
  let this := Sample.node in
  let req :=
    Sample.request [ ("returnUrl", "https://vendor.example/back");
                     ("message", Sample.ids_prefs_text) ] "" in
  let builder := postIdsPrefsRequestBuilder this in
  exists (redirectStr requestStr : string) (u : URL)
         (input signed : JsVal) (url : URL),
    req_query req proxyUriParams.returnUrl = Some redirectStr
    /\ Imports.new_URL (imports this) redirectStr = Ok u
    /\ req_query req proxyUriParams.message = Some requestStr
    /\ Imports.JSON_parse (imports this) requestStr = Ok input
    /\ let ctx := {| returnUrl := URL_toString u;
                     referer := req_header req "referer" |} in
       PostIdsPrefsRequestBuilder.buildRedirectRequest builder ctx input
       = Ok signed
       /\ PostIdsPrefsRequestBuilder.getRedirectUrl builder signed = Ok url
       /\ BText "https://operator.example/paf/v1/redirect/post-ids-prefs"
          = BText (URL_toString url)
       /\ events (run (redirectWriteIdsAndPrefs this req))
          = [ Called (C_post_buildRedirectRequest ctx input);
              Called (C_post_getRedirectUrl signed);
              ResSend (URL_toString url);
              Next None ].
Proof.
  intros this req builder.
  apply (redirect_write_success this req
           (BText "https://operator.example/paf/v1/redirect/post-ids-prefs")).
  reflexivity.
Defined.

(* ------------------------------------------------------------------ *)
(** ** Creating a seed *)

Lemma strings_of_sound (xs : list JsVal) :
  forall ids, strings_of xs = Some ids -> xs = map JStr ids.
Proof.
  induction xs as [ | x xs IH ]; intros ids H; simpl in H.
  - injection H as <-. reflexivity.
  - destruct x; try discriminate H.
    destruct (strings_of xs) as [ l | ]; try discriminate H.
    injection H as <-. simpl. f_equal. apply IH. reflexivity.
Qed.

Lemma strings_of_map (ids : list string) :
  strings_of (map JStr ids) = Some ids.
Proof.
  induction ids as [ | s ids IH ]; simpl; [ | rewrite IH ]; reflexivity.
Qed.

(** The seed that [buildSeed] returns carries its first argument as
    transactionIds, item for item. *)
Lemma buildSeed_keeps_transaction_ids (env : SeedBuilder.Env) :
  forall t d seed,
    SeedBuilder.buildSeed env t d = Ok seed ->
    t = Some (JArr (map JStr (transactionIds seed)))
    /\ d = Some (data seed).
Proof.
  intros t d seed H. unfold SeedBuilder.buildSeed in H.
  destruct t as [ [ | | | | xs | | ] | ]; try discriminate H.
  destruct d as [ d | ]; try discriminate H.
  destruct (strings_of xs) as [ ids | ] eqn:Hids; try discriminate H.
  destruct (SeedBuilder.canonicalize env ids d (SeedBuilder.now env));
    try discriminate H.
  destruct (SeedBuilder.getSigningKey env); try discriminate H.
  injection H as <-. simpl.
  rewrite (strings_of_sound xs ids Hids). split; reflexivity.
Qed.

(** C8.  With [buildSeed] as section 4.7 describes it, a run of the
    create-seed handler that answers 200 has parsed the body as an object
    whose [transaction_ids] is an array of strings and which has a [data]
    field, has passed both to [buildSeed], and has answered with the JSON
    of the very Seed it returned; that Seed's transactionIds are the
    request's, in the same order. *)
Theorem create_seed_success :
  forall (env : SeedBuilder.Env) (this : ClientNode) (req : Request)
         (b : Body),
    OperatorClient.buildSeed (client this) = SeedBuilder.buildSeed env ->
    responded (run (createSeed this req)) = Some (200, b) ->
    exists (request : JsVal) (ids : list string) (d : JsVal) (seed : Seed),
      Imports.JSON_parse (imports this) (body req) = Ok request
      /\ get_prop request "transaction_ids" = Ok (Some (JArr (map JStr ids)))
      /\ get_prop request "data" = Ok (Some d)
      /\ OperatorClient.buildSeed (client this)
           (Some (JArr (map JStr ids))) (Some d) = Ok seed
      /\ b = BJson (Seed_toJSON seed)
      /\ transactionIds seed = ids
      /\ events (run (createSeed this req))
         = [ Called (C_buildSeed (Some (JArr (map JStr ids))) (Some d));
             ResJson (Seed_toJSON seed);
             Next None ].
Proof.
  intros env this req b Hbuild H.
  unfold_handlers in H.
  repeat (split_match_in H; simpl in H; try discriminate H).
  injection H as <-.
  match goal with
  | E : OperatorClient.buildSeed _ ?t ?d = Ok ?seed |- _ =>
      pose proof E as Hspec; rewrite Hbuild in Hspec;
      apply buildSeed_keeps_transaction_ids in Hspec;
      destruct Hspec as [-> ->]
  end.
  do 4 eexists.
  repeat split; try eassumption; try reflexivity.
  unfold_handlers. rewrite_results. reflexivity.
Qed.

Lemma create_seed_success_witness :
  exists (request : JsVal) (ids : list string) (d : JsVal) (seed : Seed),
    Imports.JSON_parse (imports Sample.node) Sample.seed_text = Ok request
    /\ get_prop request "transaction_ids" = Ok (Some (JArr (map JStr ids)))
    /\ get_prop request "data" = Ok (Some d)
    /\ OperatorClient.buildSeed (client Sample.node)
         (Some (JArr (map JStr ids))) (Some d) = Ok seed
    /\ BJson
         (JObj [ ("transactionIds", JArr [ JStr "t1"; JStr "t2" ]);
                 ("data", JObj [ ("note", JStr "x") ]);
                 ("signature", JStr "vendor-key:t1.t2");
                 ("signerHost", JStr "vendor.example");
                 ("timestamp", JNum 1656000000) ])
       = BJson (Seed_toJSON seed)
    /\ transactionIds seed = ids
    /\ events (run (createSeed Sample.node
                      (Sample.request [] Sample.seed_text)))
       = [ Called (C_buildSeed (Some (JArr (map JStr ids))) (Some d));
           ResJson (Seed_toJSON seed);
           Next None ].
Proof.
  apply (create_seed_success Sample.seed_env Sample.node
           (Sample.request [] Sample.seed_text)); reflexivity.
Defined.

(* ------------------------------------------------------------------ *)
(** ** Exceptions raised outside the try block *)

(** C9.  On each of the three unguarded inputs -- a [returnUrl] that
    [new URL] rejects (any redirect handler), a [message] that
    [JSON.parse] rejects (redirect write), a body with neither [response]
    nor [error] (verify read) -- the exception leaves the handler, and the
    handler neither sends nor attempts a JSON answer, and never calls
    [next]. *)
Theorem unguarded_exception_escapes :
  forall (this : ClientNode) (req : Request) (h : Handler) (e : Exn),
    Unguarded this req h e ->
    let o := run (handle this h req) in
    escaped o = Some e
    /\ (forall v, ~ In (ResJson v) (events o))
    /\ (forall err, ~ In (Next err) (events o))
    /\ (forall code v, responded o <> Some (code, BJson v)).
Proof.
  intros this req h e U.
  destruct U as [ h s e Hh Hq Hs Hu | s e Hr Hq Hs Hp | msg Hm Hresp Herr ].
  - destruct h; try discriminate Hh; unfold_handlers;
      unfold proxyUriParams.returnUrl in Hq |- *;
      rewrite Hq, Hs, Hu; simpl;
      (repeat split; [ intros v [] | intros err [] | discriminate ]).
  - unfold getReturnUrl_returns in Hr. unfold_handlers.
    unfold proxyUriParams.returnUrl, proxyUriParams.message in *.
    destruct (req_query req "returnUrl") as [ r | ] eqn:Er.
    + destruct (r =? "")%string eqn:Ee;
        [ | destruct (Imports.new_URL (imports this) r);
            try discriminate Hr ];
        rewrite Hq, Hs, Hp; simpl;
        (repeat split; [ intros v [] | intros err [] | discriminate ]).
    + rewrite Hq, Hs, Hp; simpl.
      repeat split.
      * intros v [ H | [] ]; discriminate H.
      * intros err [ H | [] ]; discriminate H.
      * discriminate.
  - unfold_handlers. rewrite Hm, Hresp, Herr. simpl.
    repeat split.
    + intros v [ H | [] ]; discriminate H.
    + intros err [ H | [] ]; discriminate H.
    + discriminate.
Qed.

Lemma unguarded_exception_escapes_witness :
  escaped
    (run (handle Sample.node h_redirectReadIdsAndPrefs
            (Sample.request [ ("returnUrl", "not a url") ] "")))
  = Some TypeError
  /\ escaped
       (run (handle Sample.node h_redirectWriteIdsAndPrefs
               (Sample.request
                  [ ("returnUrl", "https://vendor.example/back");
                    ("message", "{") ] "")))
     = Some SyntaxError
  /\ escaped
       (run (handle Sample.node h_verifyOperatorReadResponse
               (Sample.request [] "")))
     = Some TypeError.
Proof.
  split; [ | split ].
  - apply (unguarded_exception_escapes Sample.node
             (Sample.request [ ("returnUrl", "not a url") ] "")
             h_redirectReadIdsAndPrefs TypeError).
    apply (unparseable_returnUrl Sample.node _ h_redirectReadIdsAndPrefs
             "not a url" TypeError); reflexivity.
  - apply (unguarded_exception_escapes Sample.node
             (Sample.request
                [ ("returnUrl", "https://vendor.example/back");
                  ("message", "{") ] "")
             h_redirectWriteIdsAndPrefs SyntaxError).
    apply (unparseable_message Sample.node _ "{" SyntaxError); reflexivity.
  - apply (unguarded_exception_escapes Sample.node (Sample.request [] "")
             h_verifyOperatorReadResponse TypeError).
    apply (empty_envelope Sample.node _
             {| response := None; error := None |}); reflexivity.
Defined.

(* ------------------------------------------------------------------ *)
(** ** Missing query parameters *)

(** C10.  The redirect read and delete handlers do not stop after
    rejecting a missing [returnUrl]: once the 400 is out they call the
    client with an undefined return URL and then try to send a second
    answer, which the response object refuses with
    [ERR_HTTP_HEADERS_SENT]; that exception leaves the handler. *)
Theorem redirect_continues_after_rejection :
  forall (this : ClientNode) (req : Request) (h : Handler),
    h = h_redirectReadIdsAndPrefs \/ h = h_redirectDeleteIdsAndPrefs ->
    req_query req proxyUriParams.returnUrl = None ->
    let o := run (handle this h req) in
    responded o = Some (400, BText "Bad Request")
    /\ (exists rest,
           events o
           = ResSendStatus 400 :: Called (redirect_call h req None) :: rest
           /\ Exists (fun ev => is_send ev = true) rest)
    /\ (2 <= send_attempts o)%nat
    /\ escaped o = Some ERR_HTTP_HEADERS_SENT.
Proof.
  intros this req h Hh Hq.
  unfold proxyUriParams.returnUrl in Hq.
  destruct Hh as [-> | ->]; unfold send_attempts; unfold_handlers;
    unfold proxyUriParams.returnUrl; rewrite Hq; simpl;
    split_match_goal; simpl;
    (repeat split;
     [ eexists; split; [ reflexivity | ]
     | lia ]);
    first [ apply Exists_cons_hd; reflexivity
          | apply Exists_cons_tl, Exists_cons_tl, Exists_cons_tl,
              Exists_cons_hd; reflexivity
          | apply Exists_cons_tl, Exists_cons_tl, Exists_cons_hd;
              reflexivity ].
Qed.

Lemma redirect_continues_after_rejection_witness :
  events (run (handle Sample.node h_redirectReadIdsAndPrefs
                 (Sample.request [] "")))
  = [ ResSendStatus 400;
      Called (C_getReadRedirectUrl (Sample.request [] "") None);
      ResSend "https://operator.example/paf/v1/redirect/get-ids-prefs";
      LoggerError (RedirectEndpoint redirectProxyEndpoints.read);
      ResStatus 400;
      ResJson (NodeError_toJSON unknown_error) ]
  /\ escaped (run (handle Sample.node h_redirectReadIdsAndPrefs
                     (Sample.request [] "")))
     = Some ERR_HTTP_HEADERS_SENT.
Proof.
  split.
  - reflexivity.
  - apply (redirect_continues_after_rejection Sample.node
             (Sample.request [] "") h_redirectReadIdsAndPrefs);
      [ left | ]; reflexivity.
Defined.

(** C2, as stated, fails: the redirect read handler does not read
    [message], and a read request without it is answered 200. *)
Lemma read_without_message_not_rejected :
  ~ missing_parameter_rejected Sample.node h_redirectReadIdsAndPrefs
      (Sample.request [ ("returnUrl", "https://vendor.example/back") ] "").
Proof.
  intro H. destruct H as [ b Hb ]; [ left; reflexivity | ].
  discriminate Hb.
Qed.

(** C2, amended.  A redirect request without [returnUrl] is answered with
    the bare 400 of [sendStatus], whichever the endpoint; so is a redirect
    write request without [message], provided reading [returnUrl] did not
    throw. *)
Theorem missing_parameter_bare_400 :
  forall (this : ClientNode) (h : Handler) (req : Request),
    is_redirect h = true ->
    req_query req proxyUriParams.returnUrl = None
    \/ (h = h_redirectWriteIdsAndPrefs
        /\ req_query req proxyUriParams.message = None
        /\ getReturnUrl_returns this req = true) ->
    responded (run (handle this h req)) = Some (400, BText "Bad Request").
Proof.
  intros this h req Hh Hmissing.
  unfold getReturnUrl_returns, proxyUriParams.returnUrl,
    proxyUriParams.message in Hmissing.
  destruct Hmissing as [ Hq | (-> & Hm & Hr) ].
  - destruct h; try discriminate Hh; unfold_handlers;
      unfold proxyUriParams.returnUrl, proxyUriParams.message, toString_opt;
      rewrite Hq; simpl;
      repeat (split_match_goal; simpl); reflexivity.
  - unfold_handlers.
    unfold proxyUriParams.returnUrl, proxyUriParams.message.
    rewrite Hm.
    destruct (req_query req "returnUrl") as [ s | ]; simpl;
      [ destruct (s =? "")%string; simpl;
        [ | destruct (Imports.new_URL (imports this) s);
            try discriminate Hr; simpl ]
      | ];
      reflexivity.
Qed.

Lemma missing_parameter_bare_400_witness :
  responded
    (run (handle Sample.node h_redirectWriteIdsAndPrefs
            (Sample.request
               [ ("returnUrl", "https://vendor.example/back") ] "")))
  = Some (400, BText "Bad Request").
Proof.
  apply (missing_parameter_bare_400 Sample.node h_redirectWriteIdsAndPrefs).
  - reflexivity.
  - right. repeat split; reflexivity.
Defined.

(* ------------------------------------------------------------------ *)
(** ** The shape of a failure answer *)

(** C1, as stated, fails: a redirect request without [returnUrl] is
    answered by [sendStatus(400)], whose body is the plain status text and
    not a JSON object. *)
Lemma missing_returnUrl_not_json :
  let o := run (handle Sample.node h_redirectReadIdsAndPrefs
                  (Sample.request [] "")) in
  req_query (Sample.request [] "") proxyUriParams.returnUrl = None
  /\ responded o = Some (400, BText "Bad Request")
  /\ ~ two_field_error o.
Proof.
  repeat split.
  intros (b & Hb & Hfields).
  injection Hb as <-. discriminate Hfields.
Qed.

(** C1, amended.  Whenever a handler answers with a status other than 200,
    the status is 400; the body is the JSON object of exactly the two
    fields [type] and [details], except when a redirect handler rejects a
    missing [returnUrl] (or, on redirect write, a missing [message]): that
    answer is the bare status text of [sendStatus(400)].  The relay of an
    operator error that has no [message] is left aside. *)
Theorem failure_answer_shape :
  forall (this : ClientNode) (h : Handler) (req : Request)
         (code : Z) (b : Body),
    ~ relays_error_without_message this h req ->
    responded (run (handle this h req)) = Some (code, b) ->
    code <> 200 ->
    code = 400
    /\ ((error_body b /\ body_fields b = Some [ "type"; "details" ])
        \/ (b = BText "Bad Request"
            /\ is_redirect h = true
            /\ (req_query req proxyUriParams.returnUrl = None
                \/ (h = h_redirectWriteIdsAndPrefs
                    /\ req_query req proxyUriParams.message = None)))).
Proof.
  intros this h req code b Hrelay H Hcode.
  destruct h; unfold_handlers in H;
    unfold proxyUriParams.returnUrl, proxyUriParams.message, toString_opt,
      error_message, get_prop_opt in H;
    repeat (split_match_in H; simpl in H; try discriminate H);
    injection H as <- <-;
    try (exfalso; apply Hcode; reflexivity);
    try solve [ json_error_case | bare_status_case ];
    (* the relay of an operator error *)
    match goal with
    | Herr : error ?msg = Some ?env |- _ =>
        destruct (message env) eqn:Hmessage;
        [ json_error_case
        | exfalso; apply Hrelay; split; [ reflexivity | ];
          exists msg, env; repeat split; try assumption;
          match goal with
          | Hresp : response msg = _ |- _ => rewrite Hresp
          end;
          first [ exact I | apply negb_true_iff; assumption ] ]
    end.
Qed.

Lemma failure_answer_shape_witness :
  let b :=
    BJson (JObj [ ("type",
                   JEnum (OfOperator OperatorErrorType.UNKNOWN_ERROR));
                  ("details", JStr "no such user") ]) in
  responded
    (run (handle Sample.node h_verifyOperatorReadResponse
            (Sample.request [] "error")))
  = Some (400, b)
  /\ error_body b
  /\ body_fields b = Some [ "type"; "details" ].
Proof.
  intro b. split; [ reflexivity | ].
  destruct (failure_answer_shape Sample.node h_verifyOperatorReadResponse
              (Sample.request [] "error") 400 b)
    as [ _ [ Hshape | [ Htext _ ] ] ].
  - intros (_ & msg & env & Hmsg & _ & Herr & Hnone).
    injection Hmsg as <-. injection Herr as <-. discriminate Hnone.
  - reflexivity.
  - discriminate.
  - exact Hshape.
  - discriminate Htext.
Defined.

(* ------------------------------------------------------------------ *)
(** ** Further properties of the handlers *)

(** A handler whose whole body is one [try]/[catch] lets no exception
    out and answers exactly once: either 200 followed by [next()], or 400
    with the JSON [UNKNOWN_ERROR] followed by [next(error)]. *)
Theorem guarded_handler_answers_once :
  forall (this : ClientNode) (h : Handler) (req : Request),
    guarded h = true ->
    let o := run (handle this h req) in
    escaped o = None
    /\ send_attempts o = 1%nat
    /\ ((exists b, responded o = Some (200, b) /\ In (Next None) (events o))
        \/ (responded o = Some (400, BJson (NodeError_toJSON unknown_error))
            /\ In (Next (Some unknown_error)) (events o))).
Proof.
  intros this h req Hh.
  destruct h; try discriminate Hh; unfold send_attempts; unfold_handlers;
    unfold get_prop_opt;
    repeat (split_match_goal; simpl);
    (repeat split;
     first [ left; eexists; split; [ reflexivity | simpl; auto 8 ]
           | right; split; [ reflexivity | simpl; auto 8 ] ]).
Qed.

Lemma guarded_handler_answers_once_witness :
  escaped (run (handle Sample.node h_signPreferences
                  (Sample.request [] "null"))) = None
  /\ responded (run (handle Sample.node h_signPreferences
                       (Sample.request [] "null")))
     = Some (400, BJson (NodeError_toJSON unknown_error)).
Proof.
  destruct (guarded_handler_answers_once Sample.node h_signPreferences
              (Sample.request [] "null") eq_refl)
    as (Hescaped & _ & [ (b & Hb & _) | (Hb & _) ]).
  - discriminate Hb.
  - split; assumption.
Defined.

(** The redirect write handler leaves a request unanswered when
    [message] is empty or parses to a falsy value ([null], [false], [0],
    the empty string) and [returnUrl] is present and readable: nothing is
    sent, [next] is not called, no exception is raised. *)
Theorem redirect_write_falsy_message_unanswered :
  forall (this : ClientNode) (req : Request) (r m : string),
    req_query req proxyUriParams.returnUrl = Some r ->
    getReturnUrl_returns this req = true ->
    req_query req proxyUriParams.message = Some m ->
    (m =? "")%string = true
    \/ (exists v, Imports.JSON_parse (imports this) m = Ok v
                  /\ truthy v = false) ->
    run (redirectWriteIdsAndPrefs this req) = (Ok tt, fresh).
Proof.
  intros this req r m Hr Hret Hm Hfalsy.
  unfold getReturnUrl_returns in Hret.
  unfold proxyUriParams.returnUrl, proxyUriParams.message in *.
  rewrite Hr in Hret.
  unfold_handlers. unfold proxyUriParams.returnUrl, proxyUriParams.message.
  rewrite Hr, Hm.
  destruct (r =? "")%string;
    [ | destruct (Imports.new_URL (imports this) r); try discriminate Hret ];
    (destruct Hfalsy as [ -> | (v & -> & Hv) ];
     [ reflexivity
     | destruct (m =? "")%string; simpl; [ | rewrite Hv ]; reflexivity ]).
Qed.

Lemma redirect_write_falsy_message_unanswered_witness :
  run (redirectWriteIdsAndPrefs Sample.node
         (Sample.request [ ("returnUrl", "https://vendor.example/back");
                           ("message", "null") ] ""))
  = (Ok tt, fresh).
Proof.
  apply (redirect_write_falsy_message_unanswered Sample.node _
           "https://vendor.example/back" "null");
    [ reflexivity | reflexivity | reflexivity | ].
  right. exists JNull. split; reflexivity.
Defined.

(* ------------------------------------------------------------------ *)
(** ** Calling next *)

(** A handler calls [next] at most once, as the last thing it does and
    only after it has answered: [next()] after a 200, [next(error)] after
    a 400 whose JSON body is that same error.  When [next] is not called,
    either nothing was sent or the bare 400 of a missing query parameter
    was. *)
Theorem next_follows_the_answer :
  forall (this : ClientNode) (h : Handler) (req : Request),
    let o := run (handle this h req) in
    (nexts o = []
     /\ (responded o = None
         \/ responded o = Some (400, BText "Bad Request")))
    \/ (nexts o = [ None ]
        /\ last_event o = Some (Next None)
        /\ escaped o = None
        /\ exists b, responded o = Some (200, b))
    \/ (exists e,
           nexts o = [ Some e ]
           /\ last_event o = Some (Next (Some e))
           /\ escaped o = None
           /\ responded o = Some (400, BJson (NodeError_toJSON e))).
Proof.
  intros this h req.
  destruct h; unfold nexts, last_event; unfold_handlers;
    unfold toString_opt, error_message, get_prop_opt,
      proxyUriParams.returnUrl, proxyUriParams.message;
    repeat (split_match_goal; simpl);
    first
      [ left; split; [ reflexivity | (left; reflexivity) + (right; reflexivity) ]
      | right; left; repeat split; try reflexivity; eexists; reflexivity
      | right; right; eexists; repeat split; reflexivity ].
Qed.

(* ------------------------------------------------------------------ *)
(** ** Logging *)

(** A handler logs at most once per request, and under the endpoint of the
    route it is registered on.  An answer of 200 is never logged.  A JSON
    error answer is logged exactly once, except by the JSON read handler,
    whose catch block does not log. *)
Theorem logging_matches_route :
  forall (r : Route) (h : Handler) (this : ClientNode) (req : Request),
    In r routes ->
    In (business h) (stages r) ->
    let o := run (handle this h req) in
    (logged o = [] \/ logged o = [ path r ])
    /\ (forall b, responded o = Some (200, b) -> logged o = [])
    /\ (forall v,
           responded o = Some (400, BJson v) ->
           logged o = match h with
                      | h_restGetIdsAndPrefs => []
                      | _ => [ path r ]
                      end).
Proof.
  intros r h this req Hr Hh.
  simpl in Hr.
  repeat (destruct Hr as [<- | Hr]); try contradiction;
    simpl in Hh;
    repeat (destruct Hh as [Hh | Hh]; try discriminate Hh);
    try contradiction;
    injection Hh as <-;
    unfold logged; unfold_handlers;
    unfold toString_opt, error_message, get_prop_opt,
      proxyUriParams.returnUrl, proxyUriParams.message;
    repeat (split_match_goal; simpl);
    (split; [ (left; reflexivity) + (right; reflexivity) | ]);
    (split; [ intros b Hb | intros v Hv ]);
    first [ reflexivity | discriminate ].
Qed.

Lemma logging_matches_route_witness :
  logged (run (handle Sample.node h_createSeed (Sample.request [] "{}")))
  = [ JsonEndpoint jsonProxyEndpoints.createSeed ].
Proof.
  destruct (logging_matches_route
              (json_route POST jsonProxyEndpoints.createSeed h_createSeed)
              h_createSeed Sample.node (Sample.request [] "{}"))
    as (_ & _ & Hlogged).
  - simpl. do 11 right. left. reflexivity.
  - simpl. do 3 right. left. reflexivity.
  - apply (Hlogged (NodeError_toJSON unknown_error)). reflexivity.
Defined.

(* ------------------------------------------------------------------ *)
(** ** The route table *)

(** Every handler is registered on exactly one route, and that route is
    the validation stages of its endpoint family, the span opener, the
    handler, then error shaping and the span closer, all labelled with the
    route's own endpoint.  No method and path is registered twice. *)
Theorem routes_well_formed :
  (forall h : Handler,
      exists r,
        In r routes
        /\ stages r
           = gate (path r)
               ++ [ startSpan (path r); business h;
                    handleErrors (path r); endSpan (path r) ]
        /\ (forall r',
               In r' routes -> In (business h) (stages r') -> r' = r))
  /\ NoDup (map (fun r => (method r, path r)) routes).
Proof.
  split.
  - intro h.
    destruct h;
      once (eexists; split; [ simpl; pick_member | split; [ reflexivity | ] ]);
      intros r' Hr' Hh; simpl in Hr';
      repeat (destruct Hr' as [<- | Hr']); try contradiction;
      simpl in Hh;
      repeat (destruct Hh as [Hh | Hh]; try discriminate Hh);
      try contradiction; reflexivity.
  - simpl.
    repeat (constructor;
            [ simpl; intro H;
              repeat (destruct H as [H | H]; try discriminate H);
              contradiction | ]).
    constructor.
Qed.

(* ------------------------------------------------------------------ *)
(** ** Redirect read and delete *)

(** A run of the redirect read or delete handler that answers 200 has
    found a [returnUrl] parameter, has called the client with that
    parameter parsed as a URL -- or with an undefined URL when the
    parameter is the empty string -- and has answered with the string of
    the URL the client returned. *)
Theorem redirect_read_delete_success :
  forall (this : ClientNode) (h : Handler) (req : Request) (b : Body),
    h = h_redirectReadIdsAndPrefs \/ h = h_redirectDeleteIdsAndPrefs ->
    responded (run (handle this h req)) = Some (200, b) ->
    exists (s : string) (u : option URL) (url : URL),
      req_query req proxyUriParams.returnUrl = Some s
      /\ ((s = "" /\ u = None)
          \/ (exists u', Imports.new_URL (imports this) s = Ok u'
                         /\ u = Some u'))
      /\ redirect_url_of this h req u = Ok url
      /\ b = BText (URL_toString url)
      /\ events (run (handle this h req))
         = [ Called (redirect_call h req u);
             ResSend (URL_toString url);
             Next None ].
Proof.
  intros this h req b Hh H.
  destruct Hh as [-> | ->]; unfold_handlers in H;
    unfold proxyUriParams.returnUrl in H |- *;
    repeat (split_match_in H; simpl in H; try discriminate H);
    injection H as <-;
    do 3 eexists;
    (split; [ reflexivity | ]);
    (split;
     [ first [ left; split;
               [ apply String.eqb_eq; assumption | reflexivity ]
             | right; eexists; split; [ eassumption | reflexivity ] ]
     | ]);
    (split; [ simpl; eassumption | ]);
    (split; [ reflexivity | ]);
    unfold_handlers; unfold proxyUriParams.returnUrl;
    rewrite_results; reflexivity.
Qed.

Lemma redirect_read_delete_success_witness :
  exists (s : string) (u : option URL) (url : URL),
    req_query
      (Sample.request [ ("returnUrl", "https://vendor.example/back") ] "")
      proxyUriParams.returnUrl = Some s
    /\ ((s = "" /\ u = None)
        \/ (exists u', Imports.new_URL (imports Sample.node) s = Ok u'
                       /\ u = Some u'))
    /\ redirect_url_of Sample.node h_redirectDeleteIdsAndPrefs
         (Sample.request [ ("returnUrl", "https://vendor.example/back") ] "")
         u = Ok url
    /\ BText "https://operator.example/paf/v1/redirect/delete-ids-prefs"
       = BText (URL_toString url)
    /\ events
         (run (handle Sample.node h_redirectDeleteIdsAndPrefs
                 (Sample.request
                    [ ("returnUrl", "https://vendor.example/back") ] "")))
       = [ Called
             (redirect_call h_redirectDeleteIdsAndPrefs
                (Sample.request
                   [ ("returnUrl", "https://vendor.example/back") ] "") u);
           ResSend (URL_toString url);
           Next None ].
Proof.
  apply (redirect_read_delete_success Sample.node
           h_redirectDeleteIdsAndPrefs
           (Sample.request [ ("returnUrl", "https://vendor.example/back") ] "")
           (BText "https://operator.example/paf/v1/redirect/delete-ids-prefs"));
    [ right | ]; reflexivity.
Defined.

(** An empty [returnUrl] is not rejected.  The redirect read and delete
    handlers send nothing before calling the client with an undefined
    return URL, and the client alone decides the answer: its URL with
    status 200 when it returns, the JSON [UNKNOWN_ERROR] with status 400
    when it throws. *)
Theorem empty_returnUrl_reaches_client :
  forall (this : ClientNode) (h : Handler) (req : Request),
    h = h_redirectReadIdsAndPrefs \/ h = h_redirectDeleteIdsAndPrefs ->
    req_query req proxyUriParams.returnUrl = Some "" ->
    let o := run (handle this h req) in
    hd_error (events o) = Some (Called (redirect_call h req None))
    /\ escaped o = None
    /\ responded o
       = match redirect_url_of this h req None with
         | Ok url => Some (200, BText (URL_toString url))
         | Throw _ => Some (400, BJson (NodeError_toJSON unknown_error))
         end.
Proof.
  intros this h req Hh Hq.
  unfold proxyUriParams.returnUrl in Hq.
  destruct Hh as [-> | ->]; unfold_handlers;
    unfold proxyUriParams.returnUrl, redirect_url_of; rewrite Hq; simpl;
    split_match_goal; simpl; repeat split; reflexivity.
Qed.

Lemma empty_returnUrl_reaches_client_witness :
  responded
    (run (handle Sample.node h_redirectReadIdsAndPrefs
            (Sample.request [ ("returnUrl", "") ] "")))
  = Some (200,
          BText "https://operator.example/paf/v1/redirect/get-ids-prefs").
Proof.
  destruct (empty_returnUrl_reaches_client Sample.node
              h_redirectReadIdsAndPrefs
              (Sample.request [ ("returnUrl", "") ] ""))
    as (_ & _ & H); [ left; reflexivity | reflexivity | exact H ].
Defined.

(* ------------------------------------------------------------------ *)
(** ** Which exceptions leave a handler *)

(** An exception leaves a handler in four cases only: one of the three
    unguarded inputs; [fromDataToObject] throwing on the body of a
    verify-read request; a verify-read envelope whose [response] is falsy
    and whose [error] is missing; and [ERR_HTTP_HEADERS_SENT], when a
    redirect handler goes on after rejecting a missing [returnUrl].  Every
    other failure is caught. *)
Theorem escapes_are_listed :
  forall (this : ClientNode) (h : Handler) (req : Request) (e : Exn),
    escaped (run (handle this h req)) = Some e ->
    Unguarded this req h e
    \/ (h = h_verifyOperatorReadResponse
        /\ Imports.fromDataToObject (imports this) (body req) = Throw e)
    \/ (h = h_verifyOperatorReadResponse
        /\ e = TypeError
        /\ exists msg r,
             Imports.fromDataToObject (imports this) (body req) = Ok msg
             /\ response msg = Some r
             /\ truthy r = false
             /\ error msg = None)
    \/ (e = ERR_HTTP_HEADERS_SENT
        /\ is_redirect h = true
        /\ req_query req proxyUriParams.returnUrl = None).
Proof.
  intros this h req e H.
  destruct h; unfold_handlers in H;
    unfold toString_opt, error_message, get_prop_opt,
      proxyUriParams.returnUrl, proxyUriParams.message in H;
    repeat (split_match_in H; simpl in H; try discriminate H);
    injection H as <-;
    first
      [ (* the second send after a bare 400 *)
        do 3 right; repeat split; assumption
      | (* a return URL that does not parse *)
        left; eapply unparseable_returnUrl;
        [ reflexivity | eassumption | assumption | assumption ]
      | (* a message that does not parse *)
        left; eapply unparseable_message;
        [ unfold getReturnUrl_returns, proxyUriParams.returnUrl;
          rewrite_results; reflexivity
        | eassumption | assumption | assumption ]
      | (* an envelope with neither field *)
        left; eapply empty_envelope; eassumption
      | right; left; split; [ reflexivity | first [ reflexivity | assumption ] ]
      | do 2 right; left; repeat split;
        do 2 eexists; repeat split; try eassumption;
        apply negb_true_iff; assumption ].
Qed.

Lemma escapes_are_listed_witness :
  is_redirect h_redirectDeleteIdsAndPrefs = true
  /\ req_query (Sample.request [] "") proxyUriParams.returnUrl = None.
Proof.
  destruct (escapes_are_listed Sample.node h_redirectDeleteIdsAndPrefs
              (Sample.request [] "") ERR_HTTP_HEADERS_SENT eq_refl)
    as [ U | [ (Hh & _) | [ (Hh & _) | (_ & Hr & Hq) ] ] ].
  - inversion U; discriminate.
  - discriminate Hh.
  - discriminate Hh.
  - split; assumption.
Defined.

(* ------------------------------------------------------------------ *)
(** ** Verify read: when the verifier is consulted *)

(** On an envelope that carries a truthy [response] or an [error], no
    exception leaves the verify-read handler and it answers exactly once.
    The verifier is called exactly when [response] is truthy, even if an
    [error] is present as well; a verifier that throws is answered with
    [UNKNOWN_ERROR], not [VERIFICATION_FAILED]. *)
Theorem verify_read_consults_verifier :
  forall (this : ClientNode) (req : Request)
         (msg : RedirectGetIdsPrefsResponse),
    Imports.fromDataToObject (imports this) (body req) = Ok msg ->
    (exists r, response msg = Some r /\ truthy r = true)
    \/ error msg <> None ->
    let o := run (verifyOperatorReadResponse this req) in
    escaped o = None
    /\ send_attempts o = 1%nat
    /\ calls o
       = match response msg with
         | Some r => if truthy r then [ C_verifyReadResponse r ] else []
         | None => []
         end
    /\ (forall r e,
           response msg = Some r ->
           truthy r = true ->
           OperatorClient.verifyReadResponse (client this) r = Throw e ->
           responded o = Some (400, BJson (NodeError_toJSON unknown_error))).
Proof.
  intros this req msg Hparse Hfield.
  unfold send_attempts, calls; unfold_handlers; unfold error_message.
  rewrite Hparse.
  destruct (response msg) as [ r | ] eqn:Hr;
    [ destruct (truthy r) eqn:Ht | ]; simpl.
  - destruct (OperatorClient.verifyReadResponse (client this) r)
      as [ [ | ] | e ] eqn:Hv; simpl;
      (repeat split; try reflexivity);
      intros r' e' Hr' _ Hv'; injection Hr' as <-;
      rewrite Hv in Hv'; try discriminate Hv'; reflexivity.
  - destruct Hfield as [ (r' & Hr' & Ht') | Herr ].
    + injection Hr' as <-. rewrite Ht in Ht'. discriminate Ht'.
    + destruct (error msg); [ | contradiction ]; simpl.
      repeat split; try reflexivity.
      intros r' e' Hr' Ht'. injection Hr' as <-.
      rewrite Ht in Ht'. discriminate Ht'.
  - destruct Hfield as [ (r' & Hr' & _) | Herr ]; [ discriminate Hr' | ].
    destruct (error msg); [ | contradiction ]; simpl.
    repeat split; try reflexivity.
    intros r' e' Hr'. discriminate Hr'.
Qed.

Lemma verify_read_consults_verifier_witness :
  calls (run (verifyOperatorReadResponse Sample.node
                (Sample.request [] "error")))
  = [].
Proof.
  destruct (verify_read_consults_verifier Sample.node
              (Sample.request [] "error")
              {| response := None;
                 error := Some {| message := Some (JStr "no such user") |} |})
    as (_ & _ & Hcalls & _).
  - reflexivity.
  - right. discriminate.
  - exact Hcalls.
Defined.

(* ------------------------------------------------------------------ *)
(** ** New id and delete over REST *)

(** A run of the new-id handler that answers 200 has signed a request
    under the context [{ origin }] read from the Origin header (undefined
    when the header is absent), has asked the builder for the URL of that
    signed request, and has answered with the URL as text. *)
Theorem new_id_success :
  forall (this : ClientNode) (req : Request) (b : Body),
    responded (run (getNewId this req)) = Some (200, b) ->
    let builder := getNewIdRequestBuilder this in
    let ctx := {| origin := req_header req "origin" |} in
    exists (signed : JsVal) (url : URL),
      GetNewIdRequestBuilder.buildRestRequest builder ctx = Ok signed
      /\ GetNewIdRequestBuilder.getRestUrl builder signed = Ok url
      /\ b = BText (URL_toString url)
      /\ events (run (getNewId this req))
         = [ Called (C_newId_buildRestRequest ctx);
             Called (C_newId_getRestUrl signed);
             ResSend (URL_toString url);
             Next None ].
Proof.
  intros this req b H. cbv zeta.
  unfold_handlers in H.
  repeat (split_match_in H; simpl in H; try discriminate H).
  injection H as <-.
  do 2 eexists.
  repeat split; try eassumption; try reflexivity.
  unfold_handlers. rewrite_results. reflexivity.
Qed.

Lemma new_id_success_witness :
  exists (signed : JsVal) (url : URL),
    GetNewIdRequestBuilder.buildRestRequest
      (getNewIdRequestBuilder Sample.node)
      {| origin := Some "https://vendor.example" |} = Ok signed
    /\ GetNewIdRequestBuilder.getRestUrl
         (getNewIdRequestBuilder Sample.node) signed = Ok url
    /\ BText "https://operator.example/paf/v1/new-id"
       = BText (URL_toString url)
    /\ events (run (getNewId Sample.node (Sample.request [] "")))
       = [ Called (C_newId_buildRestRequest
                     {| origin := Some "https://vendor.example" |});
           Called (C_newId_getRestUrl signed);
           ResSend (URL_toString url);
           Next None ].
Proof.
  apply (new_id_success Sample.node (Sample.request [] "")
           (BText "https://operator.example/paf/v1/new-id")).
  reflexivity.
Defined.

(** The same for the REST delete handler and its own builder. *)
Theorem rest_delete_success :
  forall (this : ClientNode) (req : Request) (b : Body),
    responded (run (restDeleteIdsAndPrefs this req)) = Some (200, b) ->
    let builder := deleteIdsPrefsRequestBuilder this in
    let ctx := {| origin := req_header req "origin" |} in
    exists (request : JsVal) (url : URL),
      DeleteIdsPrefsRequestBuilder.buildRestRequest builder ctx = Ok request
      /\ DeleteIdsPrefsRequestBuilder.getRestUrl builder request = Ok url
      /\ b = BText (URL_toString url)
      /\ events (run (restDeleteIdsAndPrefs this req))
         = [ Called (C_delete_buildRestRequest ctx);
             Called (C_delete_getRestUrl request);
             ResSend (URL_toString url);
             Next None ].
Proof.
  intros this req b H. cbv zeta.
  unfold_handlers in H.
  repeat (split_match_in H; simpl in H; try discriminate H).
  injection H as <-.
  do 2 eexists.
  repeat split; try eassumption; try reflexivity.
  unfold_handlers. rewrite_results. reflexivity.
Qed.

Lemma rest_delete_success_witness :
  exists (request : JsVal) (url : URL),
    DeleteIdsPrefsRequestBuilder.buildRestRequest
      (deleteIdsPrefsRequestBuilder Sample.node)
      {| origin := Some "https://vendor.example" |} = Ok request
    /\ DeleteIdsPrefsRequestBuilder.getRestUrl
         (deleteIdsPrefsRequestBuilder Sample.node) request = Ok url
    /\ BText "https://operator.example/paf/v1/ids-prefs"
       = BText (URL_toString url)
    /\ events (run (restDeleteIdsAndPrefs Sample.node
                      (Sample.request [] "")))
       = [ Called (C_delete_buildRestRequest
                     {| origin := Some "https://vendor.example" |});
           Called (C_delete_getRestUrl request);
           ResSend (URL_toString url);
           Next None ].
Proof.
  apply (rest_delete_success Sample.node (Sample.request [] "")
           (BText "https://operator.example/paf/v1/ids-prefs")).
  reflexivity.
Defined.

(* ------------------------------------------------------------------ *)
(** ** Signing preferences *)

(** A run of the sign-preferences handler that answers 200 has read
    [identifiers] and [unsignedPreferences.data] off the payload, has
    passed them to [buildPreferences] as they are (either may be
    undefined), and has answered with the JSON of what it returned. *)
Theorem sign_preferences_success :
  forall (this : ClientNode) (req : Request) (b : Body),
    responded (run (signPreferences this req)) = Some (200, b) ->
    exists (payload unsignedPreferences : JsVal)
           (identifiers unsignedData : option JsVal) (prefs : JsVal),
      Imports.getPayload (imports this) req = Ok payload
      /\ get_prop payload "identifiers" = Ok identifiers
      /\ get_prop payload "unsignedPreferences" = Ok (Some unsignedPreferences)
      /\ get_prop unsignedPreferences "data" = Ok unsignedData
      /\ OperatorClient.buildPreferences (client this)
           identifiers unsignedData = Ok prefs
      /\ b = BJson prefs
      /\ events (run (signPreferences this req))
         = [ Called (C_buildPreferences identifiers unsignedData);
             ResJson prefs;
             Next None ].
Proof.
  intros this req b H.
  unfold_handlers in H. unfold get_prop_opt in H.
  repeat (split_match_in H; simpl in H; try discriminate H).
  injection H as <-.
  do 5 eexists.
  repeat split; try eassumption; try reflexivity.
  unfold_handlers. unfold get_prop_opt. rewrite_results. reflexivity.
Qed.

Lemma sign_preferences_success_witness :
  exists (payload unsignedPreferences : JsVal)
         (identifiers unsignedData : option JsVal) (prefs : JsVal),
    Imports.getPayload (imports SampleForms.node)
      (Sample.request [] "prefs") = Ok payload
    /\ get_prop payload "identifiers" = Ok identifiers
    /\ get_prop payload "unsignedPreferences" = Ok (Some unsignedPreferences)
    /\ get_prop unsignedPreferences "data" = Ok unsignedData
    /\ OperatorClient.buildPreferences (client SampleForms.node)
         identifiers unsignedData = Ok prefs
    /\ BJson (JObj []) = BJson prefs
    /\ events (run (signPreferences SampleForms.node
                      (Sample.request [] "prefs")))
       = [ Called (C_buildPreferences identifiers unsignedData);
           ResJson prefs;
           Next None ].
Proof.
  apply (sign_preferences_success SampleForms.node
           (Sample.request [] "prefs") (BJson (JObj []))).
  reflexivity.
Defined.

(** A payload that is [null], or whose [unsignedPreferences] is missing
    or [null], never reaches [buildPreferences]: the read of [data] throws
    inside the try block and the answer is the logged 400 with the JSON
    [UNKNOWN_ERROR]. *)
Theorem sign_preferences_without_preferences :
  forall (this : ClientNode) (req : Request) (payload : JsVal),
    Imports.getPayload (imports this) req = Ok payload ->
    payload = JNull
    \/ get_prop payload "unsignedPreferences" = Ok None
    \/ get_prop payload "unsignedPreferences" = Ok (Some JNull) ->
    run (signPreferences this req)
    = (Ok tt,
       {| res := {| statusCode := 400;
                    sent := Some (400,
                                  BJson (NodeError_toJSON unknown_error)) |};
          trace := [ LoggerError (JsonEndpoint jsonProxyEndpoints.signPrefs);
                     ResStatus 400;
                     ResJson (NodeError_toJSON unknown_error);
                     Next (Some unknown_error) ] |}).
Proof.
  intros this req payload Hp Hbad.
  unfold_handlers. unfold get_prop_opt. rewrite Hp.
  destruct Hbad as [ -> | [ Hup | Hup ] ].
  - reflexivity.
  - destruct (get_prop payload "identifiers"); [ | reflexivity ].
    rewrite Hup. reflexivity.
  - destruct (get_prop payload "identifiers"); [ | reflexivity ].
    rewrite Hup. reflexivity.
Qed.

Lemma sign_preferences_without_preferences_witness :
  responded (run (signPreferences Sample.node (Sample.request [] "{}")))
  = Some (400, BJson (NodeError_toJSON unknown_error)).
Proof.
  rewrite (sign_preferences_without_preferences Sample.node
             (Sample.request [] "{}") (JObj []));
    [ reflexivity | reflexivity | right; left; reflexivity ].
Defined.

(* ------------------------------------------------------------------ *)
(** ** Create seed: what reaches the builder *)

(** The create-seed handler checks nothing itself.  For any body that
    parses to a value other than [null] it calls [buildSeed] once with
    the body's [transaction_ids] and [data], undefined when absent, and
    [buildSeed] alone decides between the Seed with status 200 and the
    JSON [UNKNOWN_ERROR] with status 400. *)
Theorem create_seed_delegates :
  forall (this : ClientNode) (req : Request) (request : JsVal),
    Imports.JSON_parse (imports this) (body req) = Ok request ->
    request <> JNull ->
    let o := run (createSeed this req) in
    exists t d,
      get_prop request "transaction_ids" = Ok t
      /\ get_prop request "data" = Ok d
      /\ calls o = [ C_buildSeed t d ]
      /\ escaped o = None
      /\ responded o
         = match OperatorClient.buildSeed (client this) t d with
           | Ok seed => Some (200, BJson (Seed_toJSON seed))
           | Throw _ => Some (400, BJson (NodeError_toJSON unknown_error))
           end.
Proof.
  intros this req request Hparse Hnull.
  unfold calls; unfold_handlers. rewrite Hparse.
  destruct request; try contradiction; simpl;
    do 2 eexists;
    (split; [ reflexivity | split; [ reflexivity | ] ]);
    split_match_goal; simpl; repeat split; reflexivity.
Qed.

Lemma create_seed_delegates_witness :
  calls (run (createSeed Sample.node (Sample.request [] "{}")))
  = [ C_buildSeed None None ].
Proof.
  destruct (create_seed_delegates Sample.node (Sample.request [] "{}")
              (JObj []) eq_refl)
    as (t & d & Ht & Hd & Hcalls & _).
  - discriminate.
  - injection Ht as <-. injection Hd as <-. exact Hcalls.
Defined.

(* ------------------------------------------------------------------ *)
(** ** Where signing contexts come from *)

(** Whatever the outcome of a request, every context a handler hands to a
    builder is read off that request: a REST context is the Origin
    header; a redirect context is the Referer header together with the
    string of the [returnUrl] parameter as [new URL] parsed it, and is
    only ever built for a non-empty [returnUrl] and a [message] that
    parsed to a truthy value. *)
Theorem signing_context_from_request :
  forall (this : ClientNode) (h : Handler) (req : Request) (c : Call),
    In c (calls (run (handle this h req))) ->
    match c with
    | C_post_buildRestRequest ctx payload =>
        ctx = {| origin := req_header req "origin" |}
        /\ Imports.getPayload (imports this) req = Ok payload
    | C_newId_buildRestRequest ctx
    | C_delete_buildRestRequest ctx =>
        ctx = {| origin := req_header req "origin" |}
    | C_post_buildRedirectRequest ctx payload =>
        exists s u m,
          req_query req proxyUriParams.returnUrl = Some s
          /\ (s =? "")%string = false
          /\ Imports.new_URL (imports this) s = Ok u
          /\ ctx = {| returnUrl := URL_toString u;
                      referer := req_header req "referer" |}
          /\ req_query req proxyUriParams.message = Some m
          /\ Imports.JSON_parse (imports this) m = Ok payload
          /\ truthy payload = true
    | _ => True
    end.
Proof.
  intros this h req c H.
  destruct h; unfold calls in H; unfold_handlers in H;
    unfold toString_opt, error_message, get_prop_opt,
      proxyUriParams.returnUrl, proxyUriParams.message in H |- *;
    repeat (split_match_in H; simpl in H);
    repeat (destruct H as [ <- | H ]);
    try contradiction; try exact I; try reflexivity;
    first [ split; [ reflexivity | first [ reflexivity | assumption ] ]
          | do 3 eexists; repeat split; try eassumption; reflexivity ].
Qed.

Lemma signing_context_from_request_witness :
  exists s u m,
    req_query
      (Sample.request [ ("returnUrl", "https://vendor.example/back");
                        ("message", Sample.ids_prefs_text) ] "")
      proxyUriParams.returnUrl = Some s
    /\ (s =? "")%string = false
    /\ Imports.new_URL (imports Sample.node) s = Ok u
    /\ {| returnUrl := "https://vendor.example/back";
          referer := Some "https://vendor.example/page" |}
       = {| returnUrl := URL_toString u;
            referer :=
              req_header
                (Sample.request
                   [ ("returnUrl", "https://vendor.example/back");
                     ("message", Sample.ids_prefs_text) ] "")
                "referer" |}
    /\ req_query
         (Sample.request [ ("returnUrl", "https://vendor.example/back");
                           ("message", Sample.ids_prefs_text) ] "")
         proxyUriParams.message = Some m
    /\ Imports.JSON_parse (imports Sample.node) m
       = Ok (JObj [ ("identifiers", JArr [JStr "id1"]);
                    ("preferences", JObj [ ("optIn", JBool true) ]) ])
    /\ truthy (JObj [ ("identifiers", JArr [JStr "id1"]);
                      ("preferences", JObj [ ("optIn", JBool true) ]) ])
       = true.
Proof.
  apply (signing_context_from_request Sample.node
           h_redirectWriteIdsAndPrefs
           (Sample.request [ ("returnUrl", "https://vendor.example/back");
                             ("message", Sample.ids_prefs_text) ] "")
           (C_post_buildRedirectRequest
              {| returnUrl := "https://vendor.example/back";
                 referer := Some "https://vendor.example/page" |}
              (JObj [ ("identifiers", JArr [JStr "id1"]);
                      ("preferences", JObj [ ("optIn", JBool true) ]) ]))).
  left. reflexivity.
Defined.

(* ------------------------------------------------------------------ *)
(** ** Sending twice *)

(** A handler tries to send a second answer only in one situation: a
    redirect handler that has already rejected a missing [returnUrl].
    On every other request it makes at most one attempt. *)
Theorem second_send_only_after_missing_returnUrl :
  forall (this : ClientNode) (h : Handler) (req : Request),
    (2 <= send_attempts (run (handle this h req)))%nat ->
    is_redirect h = true
    /\ req_query req proxyUriParams.returnUrl = None
    /\ responded (run (handle this h req)) = Some (400, BText "Bad Request")
    /\ escaped (run (handle this h req)) = Some ERR_HTTP_HEADERS_SENT.
Proof.
  intros this h req H.
  destruct h; unfold send_attempts in H; unfold_handlers in H;
    unfold_handlers;
    unfold toString_opt, error_message, get_prop_opt,
      proxyUriParams.returnUrl, proxyUriParams.message in H |- *;
    repeat (split_match_in H; simpl in H);
    try (exfalso; lia);
    simpl; repeat split; reflexivity.
Qed.

Lemma second_send_only_after_missing_returnUrl_witness :
  req_query (Sample.request [ ("message", "{}") ] "")
    proxyUriParams.returnUrl = None
  /\ escaped (run (handle Sample.node h_redirectWriteIdsAndPrefs
                     (Sample.request [ ("message", "{}") ] "")))
     = Some ERR_HTTP_HEADERS_SENT.
Proof.
  destruct (second_send_only_after_missing_returnUrl Sample.node
              h_redirectWriteIdsAndPrefs
              (Sample.request [ ("message", "{}") ] ""))
    as (_ & Hq & _ & He).
  - vm_compute. lia.
  - split; assumption.
Defined.

(* ------------------------------------------------------------------ *)
(** ** Relaying an operator error that has no message *)

(** When the verify-read handler relays an operator error that reads
    [undefined] for [message], the [details] of the error it builds is
    undefined too, and the 400 it sends is the JSON object of the single
    field [type]; the error handed to [next] is that same object. *)
Theorem operator_error_without_message :
  forall (this : ClientNode) (req : Request)
         (msg : RedirectGetIdsPrefsResponse) (env : ErrorEnvelope),
    Imports.fromDataToObject (imports this) (body req) = Ok msg ->
    match response msg with
    | Some r => truthy r = false
    | None => True
    end ->
    error msg = Some env ->
    message env = None ->
    let relayed :=
      {| type := OfOperator OperatorErrorType.UNKNOWN_ERROR;
         details := None |} in
    let sent_body :=
      JObj [ ("type", JEnum (OfOperator OperatorErrorType.UNKNOWN_ERROR)) ] in
    run (verifyOperatorReadResponse this req)
    = (Ok tt,
       {| res := {| statusCode := 400;
                    sent := Some (400, BJson sent_body) |};
          trace := [ LoggerError (JsonEndpoint jsonProxyEndpoints.verifyRead);
                     ResStatus 400;
                     ResJson sent_body;
                     Next (Some relayed) ] |})
    /\ body_fields (BJson sent_body) = Some [ "type" ].
Proof.
  intros this req msg env Hparse Hresp Herr Hnone relayed sent_body.
  split; [ | reflexivity ].
  unfold_handlers. unfold error_message.
  rewrite Hparse.
  destruct (response msg) as [ r | ];
    [ rewrite Hresp; simpl | ];
    rewrite Herr; simpl; rewrite Hnone; reflexivity.
Qed.

Lemma operator_error_without_message_witness :
  responded
    (run (verifyOperatorReadResponse SampleEnvelopes.node
            (Sample.request [] "bare error")))
  = Some (400,
          BJson (JObj [ ("type",
                         JEnum (OfOperator
                                  OperatorErrorType.UNKNOWN_ERROR)) ])).
Proof.
  destruct (operator_error_without_message SampleEnvelopes.node
              (Sample.request [] "bare error")
              {| response := None; error := Some {| message := None |} |}
              {| message := None |} eq_refl I eq_refl eq_refl)
    as [ Hrun _ ].
  rewrite Hrun. reflexivity.
Defined.
